(** * iron-skillet: tools/build_my_configs.py

    A shallow embedding of the configuration builder and the proofs of the
    properties its specification states.

    The script is a linear sequence of console and file-system effects
    around two third-party libraries (jinja2 and passlib).  The embedding
    follows that shape:

    - the process state (file system, console, interpreter globals, the
      random source) is a record [World];
    - every Python function is a computation [M A] that takes a world and
      returns a result (a value or a raised exception) with the new world;
    - jinja2, passlib and the values stored in the variable set are an
      interface, [Platform], that the script is written against. *)

From Stdlib Require Import ZArith Ascii String List.
From stdpp Require Import base gmap strings list fin_maps.

Set Default Proof Using "Type".
Local Open Scope string_scope.
Local Open Scope list_scope.

(** ** Strings and POSIX paths *)

Module Path.

(** The newline character of Python's ['\n']. *)
Definition nl : string := String (ascii_of_nat 10) EmptyString.

(** [s * n] for a string [s]. *)
Fixpoint repeat_string (s : string) (n : nat) : string :=
  match n with
  | O => ""
  | S k => s +:+ repeat_string s k
  end.

(** [str.center(width)]: CPython puts the odd padding cell on the left
    only when both the margin and the width are odd. *)
Definition center (s : string) (width : nat) : string :=
  let len := String.length s in
  if Nat.leb width len then s
  else
    let marg := (width - len)%nat in
    let left := (marg / 2 + (if Nat.odd marg && Nat.odd width then 1 else 0))%nat in
    repeat_string " " left +:+ s +:+ repeat_string " " (marg - left)%nat.

(** [s.startswith(p)] *)
Fixpoint startswith (p s : string) : bool :=
  match p with
  | "" => true
  | String a p' =>
      match s with
      | "" => false
      | String b s' => Ascii.eqb a b && startswith p' s'
      end
  end.

Fixpoint endswith_slash (s : string) : bool :=
  match s with
  | "" => false
  | String c "" => Ascii.eqb c "/"
  | String _ r => endswith_slash r
  end.

(** [s.split('/')]. *)
Fixpoint split_slash (s : string) : list string :=
  match s with
  | "" => [""]
  | String c r =>
      if Ascii.eqb c "/" then "" :: split_slash r
      else match split_slash r with
           | h :: t => String c h :: t
           | [] => [String c ""]
           end
  end.

(** [posixpath.join] of two components. *)
Definition join (a b : string) : string :=
  if startswith "/" b then b
  else if String.eqb a "" || endswith_slash a then a +:+ b
  else a +:+ "/" +:+ b.

Definition isabs (p : string) : bool := startswith "/" p.

(** One round of the component loop of [posixpath.normpath]; the stack of
    kept components is held in reverse. *)
Definition norm_step (initial_slashes : nat) (rev_comps : list string)
    (comp : string) : list string :=
  if String.eqb comp "" || String.eqb comp "." then rev_comps
  else if negb (String.eqb comp "..")
          || (Nat.eqb initial_slashes 0 && match rev_comps with [] => true | _ => false end)
          || match rev_comps with l :: _ => String.eqb l ".." | [] => false end
       then comp :: rev_comps
       else match rev_comps with
            | _ :: t => t
            | [] => []
            end.

(** [posixpath.normpath]. *)
Definition normpath (path : string) : string :=
  if String.eqb path "" then "."
  else
    let initial_slashes :=
      if startswith "/" path then
        if startswith "//" path && negb (startswith "///" path) then 2 else 1
      else 0 in
    let comps := rev (fold_left (norm_step initial_slashes) (split_slash path) []) in
    let p := repeat_string "/" initial_slashes +:+ String.concat "/" comps in
    if String.eqb p "" then "." else p.

(** [posixpath.abspath] for a process whose working directory is [cwd]. *)
Definition abspath (cwd path : string) : string :=
  normpath (if isabs path then path else join cwd path).

(** [posixpath.basename] : what follows the last slash. *)
Definition basename (p : string) : string :=
  List.last (split_slash p) "".

Fixpoint rstrip_slash_rev (l : list ascii) : list ascii :=
  match l with
  | c :: t => if Ascii.eqb c "/" then rstrip_slash_rev t else l
  | [] => []
  end.

Fixpoint all_slashes (s : string) : bool :=
  match s with
  | "" => true
  | String c r => Ascii.eqb c "/" && all_slashes r
  end.

(** [posixpath.dirname]: the head up to and including the last slash,
    with trailing slashes removed unless it consists of slashes only. *)
Definition dirname (p : string) : string :=
  let comps := split_slash p in
  let head_comps := removelast comps in
  match head_comps with
  | [] => ""
  | _ =>
      let head := String.concat "/" head_comps +:+ "/" in
      if all_slashes head then head
      else string_of_list_ascii (rev (rstrip_slash_rev (rev (list_ascii_of_string head))))
  end.

End Path.

(** ** Exceptions and results *)

(** The exceptions the script can end with.  [LibraryError] stands for any
    other exception raised inside jinja2 or passlib (a template syntax
    error, an undefined filter, a rejected password).  [OutOfFuel] is not a
    Python exception: it marks a loop of the model that was cut off before
    the loop of the script would have ended ([password_loop_enough_fuel]
    shows that the script never gets there). *)
Inductive exn : Type :=
  | SystemExit (code : option Z)
  | ModuleNotFoundError (name : string)
  | AttributeError (attr : string)
  | KeyError (key : string)
  | IndexError
  | NameError (name : string)
  | EOFError
  | FileNotFoundError (path : string)
  | FileExistsError (path : string)
  | IsADirectoryError (path : string)
  | NotADirectoryError (path : string)
  | SameFileError (path : string)
  | TemplateNotFound (name : string)
  | LibraryError (msg : string)
  | OutOfFuel.

Inductive Result (A : Type) : Type :=
  | Ok (a : A)
  | Raise (e : exn).
Arguments Ok {A} a.
Arguments Raise {A} e.

(** The exit status the interpreter gives the process: [0] when the script
    falls off its end, the argument of [sys.exit] ([0] when it is absent),
    and [1] for any other exception that reaches the top level. *)
Definition exit_status {A} (r : Result A) : Z :=
  match r with
  | Ok _ => 0
  | Raise (SystemExit None) => 0
  | Raise (SystemExit (Some n)) => n
  | Raise _ => 1
  end.

(** ** What the script observes and does *)

(** One console or file-system effect.  Paths are the resolved ones. *)
Inductive event : Type :=
  | EPrint (line : string)
  | EPrompt (prompt : string)
  | EMkdir (path : string)
  | ELoad (searchpath name : string)
  | EWrite (path content : string)
  | ECopy (src dst : string).

(** A load-order dictionary: xpath -> list whose first item is the snippet
    name, in insertion order (the order Python iterates a dict in). *)
Definition LoadOrder : Type := list (string * list string).

(** The attributes a load-order module defines. *)
Definition PyModule : Type := gmap string LoadOrder.

Definition dict_keys (d : LoadOrder) : list string := map fst d.

Fixpoint dict_get (d : LoadOrder) (k : string) : option (list string) :=
  match d with
  | [] => None
  | (k', v) :: r => if String.eqb k' k then Some v else dict_get r k
  end.

(** ** The libraries the script is written against *)

(** A jinja2 filter: the text it is applied to, and the random source the
    salt is drawn from. *)
Definition Filter (R : Type) : Type := string → R → Result string * R.

(** [jinja2.Environment]: the search path of its [FileSystemLoader] and the
    filters registered on top of the built-in ones. *)
Record Environment (R : Type) : Type := mkEnvironment {
  loader : string;
  filters : gmap string (Filter R)
}.
Arguments mkEnvironment {R} _ _.
Arguments loader {R} _.
Arguments filters {R} _.

(** jinja2, passlib and the values of the variable set.  The script never
    looks inside any of them: it stores strings into the variable set,
    formats a value with [str()], and hands templates, variables and filters
    to the engine. *)
Class Platform : Type := {
  (** a value of the variable set (string, number, nested mapping) *)
  PyVal : Type;
  PyStr : string → PyVal;
  (** [str(v)], what an f-string shows *)
  py_str : PyVal → string;
  (** the state of the operating system's random source *)
  Rng : Type;
  (** [passlib.hash.md5_crypt.hash] and its two siblings *)
  md5_crypt_hash : Filter Rng;
  des_crypt_hash : Filter Rng;
  sha512_crypt_hash : Filter Rng;
  (** a loaded template *)
  Template : Type;
  (** [env.get_template(name)], given the files below the search path *)
  jinja_get_template : Environment Rng → gmap string string → string → Result Template;
  (** [template.render(variables)] *)
  jinja_render : Template → gmap string PyVal → Rng → Result string * Rng
}.

Section Script.
Context `{Platform}.

(** ** The process state *)

Record World : Type := mkWorld {
  (** working directory, absolute *)
  cwd : string;
  (** directories and regular files, by absolute path *)
  dirs : gset string;
  files : gmap string string;
  (** effects so far, oldest first *)
  log : list event;
  (** lines the operator will type, in order *)
  console_in : list string;
  (** the wall clock as [strftime('%Y%m%d_%H%M%S')] shows it *)
  timestamp : string;
  (** [my_variables.xmlvar] *)
  xmlvar : gmap string PyVal;
  (** the module-level loop variable [config_type] of the script *)
  config_type_global : option string;
  (** [sys.path], [sys.modules], and what the Python file at a path defines *)
  sys_path : list string;
  sys_modules : gmap string PyModule;
  module_files : gmap string PyModule;
  rng : Rng
}.

Definition with_dirs (d : gset string) (w : World) : World :=
  {| cwd := cwd w; dirs := d; files := files w; log := log w;
     console_in := console_in w; timestamp := timestamp w; xmlvar := xmlvar w;
     config_type_global := config_type_global w; sys_path := sys_path w;
     sys_modules := sys_modules w; module_files := module_files w; rng := rng w |}.

Definition with_files (f : gmap string string) (w : World) : World :=
  {| cwd := cwd w; dirs := dirs w; files := f; log := log w;
     console_in := console_in w; timestamp := timestamp w; xmlvar := xmlvar w;
     config_type_global := config_type_global w; sys_path := sys_path w;
     sys_modules := sys_modules w; module_files := module_files w; rng := rng w |}.

Definition with_log (l : list event) (w : World) : World :=
  {| cwd := cwd w; dirs := dirs w; files := files w; log := l;
     console_in := console_in w; timestamp := timestamp w; xmlvar := xmlvar w;
     config_type_global := config_type_global w; sys_path := sys_path w;
     sys_modules := sys_modules w; module_files := module_files w; rng := rng w |}.

Definition with_console_in (c : list string) (w : World) : World :=
  {| cwd := cwd w; dirs := dirs w; files := files w; log := log w;
     console_in := c; timestamp := timestamp w; xmlvar := xmlvar w;
     config_type_global := config_type_global w; sys_path := sys_path w;
     sys_modules := sys_modules w; module_files := module_files w; rng := rng w |}.

Definition with_xmlvar (x : gmap string PyVal) (w : World) : World :=
  {| cwd := cwd w; dirs := dirs w; files := files w; log := log w;
     console_in := console_in w; timestamp := timestamp w; xmlvar := x;
     config_type_global := config_type_global w; sys_path := sys_path w;
     sys_modules := sys_modules w; module_files := module_files w; rng := rng w |}.

Definition with_config_type_global (g : option string) (w : World) : World :=
  {| cwd := cwd w; dirs := dirs w; files := files w; log := log w;
     console_in := console_in w; timestamp := timestamp w; xmlvar := xmlvar w;
     config_type_global := g; sys_path := sys_path w;
     sys_modules := sys_modules w; module_files := module_files w; rng := rng w |}.

Definition with_sys_path (p : list string) (w : World) : World :=
  {| cwd := cwd w; dirs := dirs w; files := files w; log := log w;
     console_in := console_in w; timestamp := timestamp w; xmlvar := xmlvar w;
     config_type_global := config_type_global w; sys_path := p;
     sys_modules := sys_modules w; module_files := module_files w; rng := rng w |}.

Definition with_sys_modules (m : gmap string PyModule) (w : World) : World :=
  {| cwd := cwd w; dirs := dirs w; files := files w; log := log w;
     console_in := console_in w; timestamp := timestamp w; xmlvar := xmlvar w;
     config_type_global := config_type_global w; sys_path := sys_path w;
     sys_modules := m; module_files := module_files w; rng := rng w |}.

Definition with_rng (r : Rng) (w : World) : World :=
  {| cwd := cwd w; dirs := dirs w; files := files w; log := log w;
     console_in := console_in w; timestamp := timestamp w; xmlvar := xmlvar w;
     config_type_global := config_type_global w; sys_path := sys_path w;
     sys_modules := sys_modules w; module_files := module_files w; rng := r |}.

Definition emit (e : event) (w : World) : World := with_log (log w ++ [e]) w.

(** ** Computations *)

Definition M (A : Type) : Type := World → Result A * World.

Definition ret {A} (a : A) : M A := λ w, (Ok a, w).
Definition raise {A} (e : exn) : M A := λ w, (Raise e, w).

(** Sequencing: an exception ends the computation and keeps the effects
    that happened before it. *)
Definition bind {A B} (m : M A) (k : A → M B) : M B :=
  λ w, match m w with
       | (Ok a, w') => k a w'
       | (Raise e, w') => (Raise e, w')
       end.

Notation "'let!' x ':=' m 'in' k" := (bind m (λ x, k))
  (at level 10, x name, m at level 100, k at level 200, only parsing).
Notation "m ;> k" := (bind m (λ _, k))
  (at level 100, k at level 200, right associativity, only parsing).

(** [if c: body] *)
Definition when (c : bool) (body : M unit) : M unit :=
  if c then body else ret tt.

(** [for x in xs: body(x)] *)
Fixpoint for_each {A} (xs : list A) (body : A → M unit) : M unit :=
  match xs with
  | [] => ret tt
  | x :: r => body x ;> for_each r body
  end.

(** ** The operating system and the interpreter *)

(** [print(line)] *)
Definition print (line : string) : M unit :=
  λ w, (Ok tt, emit (EPrint line) w).

(** [input(prompt)] and [getpass.getpass(prompt)]: both show the prompt and
    take the next line the operator types; end of input raises. *)
Definition read_line (prompt : string) : M string :=
  λ w, let w1 := emit (EPrompt prompt) w in
       match console_in w with
       | [] => (Raise EOFError, w1)
       | l :: r => (Ok l, with_console_in r w1)
       end.

Definition input : string → M string := read_line.
Definition getpass : string → M string := read_line.

(** The file the kernel means by [p]: relative paths start at [cwd]. *)
Definition resolve (w : World) (p : string) : string := Path.join (cwd w) p.

Definition is_dir (w : World) (p : string) : bool :=
  bool_decide (resolve w p ∈ dirs w).
Definition is_file (w : World) (p : string) : bool :=
  bool_decide (is_Some (files w !! resolve w p)).
Definition path_exists (w : World) (p : string) : bool :=
  is_dir w p || is_file w p.

(** [os.path.isdir], [os.path.isfile], [os.path.exists], [os.path.abspath] *)
Definition isdir (p : string) : M bool := λ w, (Ok (is_dir w p), w).
Definition isfile (p : string) : M bool := λ w, (Ok (is_file w p), w).
Definition exists_ (p : string) : M bool := λ w, (Ok (path_exists w p), w).
Definition abspath (p : string) : M string := λ w, (Ok (Path.abspath (cwd w) p), w).

(** What opening or creating [q] (resolved) needs of its parent. *)
Definition parent_error (w : World) (q : string) : option exn :=
  let parent := Path.dirname q in
  if bool_decide (parent ∈ dirs w) then None
  else if bool_decide (is_Some (files w !! parent)) then Some (NotADirectoryError q)
  else Some (FileNotFoundError q).

(** [os.mkdir(p)] *)
Definition mkdir (p : string) : M unit :=
  λ w, let q := resolve w p in
       if path_exists w p then (Raise (FileExistsError q), w)
       else match parent_error w q with
            | Some e => (Raise e, w)
            | None => (Ok tt, emit (EMkdir q) (with_dirs ({[q]} ∪ dirs w) w))
            end.

(** [with open(p, 'w') as f: f.write(content)] *)
Definition write_file (p content : string) : M unit :=
  λ w, let q := resolve w p in
       if is_dir w p then (Raise (IsADirectoryError q), w)
       else match parent_error w q with
            | Some e => (Raise e, w)
            | None => (Ok tt, emit (EWrite q content) (with_files (<[q := content]> (files w)) w))
            end.

(** [shutil.copy(src, dst)]: into [dst] when it is a directory, else onto
    it.  [copyfile] refuses to copy a file onto itself, then opens the
    source for reading and the destination for writing. *)
Definition copy (src dst : string) : M unit :=
  λ w, let d := if is_dir w dst then Path.join dst (Path.basename src) else dst in
       let qs := resolve w src in
       let qd := resolve w d in
       if String.eqb qs qd && path_exists w src then (Raise (SameFileError qs), w)
       else if is_dir w src then (Raise (IsADirectoryError qs), w)
       else match files w !! qs with
            | None => (Raise (FileNotFoundError qs), w)
            | Some content =>
                if is_dir w d then (Raise (IsADirectoryError qd), w)
                else match parent_error w qd with
                     | Some e => (Raise e, w)
                     | None => (Ok tt, emit (ECopy qs qd)
                                         (with_files (<[qd := content]> (files w)) w))
                     end
            end.

(** [datetime.datetime.fromtimestamp(time.time()).strftime('%Y%m%d_%H%M%S')] *)
Definition now_stamp : M string := λ w, (Ok (timestamp w), w).

(** [xmlvar[key]] and [xmlvar[key] = v] *)
Definition xmlvar_get (key : string) : M PyVal :=
  λ w, match xmlvar w !! key with
       | Some v => (Ok v, w)
       | None => (Raise (KeyError key), w)
       end.
Definition xmlvar_set (key : string) (v : PyVal) : M unit :=
  λ w, (Ok tt, with_xmlvar (<[key := v]> (xmlvar w)) w).

(** Reading and binding the module-level name [config_type]. *)
Definition read_config_type_global : M string :=
  λ w, match config_type_global w with
       | Some c => (Ok c, w)
       | None => (Raise (NameError "config_type"), w)
       end.
Definition bind_config_type_global (c : string) : M unit :=
  λ w, (Ok tt, with_config_type_global (Some c) w).

(** [sys.path.append(p)] *)
Definition sys_path_append (p : string) : M unit :=
  λ w, (Ok tt, with_sys_path (sys_path w ++ [p]) w).

(** The first directory of [sys.path] that holds [name.py]. *)
Fixpoint find_module (mf : gmap string PyModule) (path : list string)
    (name : string) : option PyModule :=
  match path with
  | [] => None
  | d :: r =>
      match mf !! Path.join d (name +:+ ".py") with
      | Some m => Some m
      | None => find_module mf r name
      end
  end.

(** [__import__(name)] for a plain module name: the cached module, else
    the first [name.py] found along [sys.path], which is then cached. *)
Definition import_ (name : string) : M PyModule :=
  λ w, match sys_modules w !! name with
       | Some m => (Ok m, w)
       | None =>
           match find_module (module_files w) (sys_path w) name with
           | Some m => (Ok m, with_sys_modules (<[name := m]> (sys_modules w)) w)
           | None => (Raise (ModuleNotFoundError name), w)
           end
       end.

(** [module.attr] *)
Definition getattr (m : PyModule) (attr : string) : M LoadOrder :=
  match m !! attr with
  | Some d => ret d
  | None => raise (AttributeError attr)
  end.

(** [d[k][0]] *)
Definition first_item (d : LoadOrder) (k : string) : M string :=
  match dict_get d k with
  | None => raise (KeyError k)
  | Some [] => raise IndexError
  | Some (x :: _) => ret x
  end.

(** [sys.exit()] *)
Definition sys_exit {A} (code : option Z) : M A := raise (SystemExit code).

(** The files a [FileSystemLoader(searchpath)] can reach. *)
Definition loader_view (w : World) (searchpath : string) : gmap string string :=
  filter (λ kv, Path.startswith (resolve w searchpath +:+ "/") kv.1 = true) (files w).

(** [Environment(loader=FileSystemLoader(searchpath))] and
    [env.filters[name] = f] *)
Definition new_environment (searchpath : string) : Environment Rng :=
  mkEnvironment searchpath ∅.
Definition register_filter (name : string) (f : Filter Rng) (env : Environment Rng)
    : Environment Rng :=
  mkEnvironment (loader env) (<[name := f]> (filters env)).

(** [env.get_template(name)] *)
Definition get_template (env : Environment Rng) (name : string) : M Template :=
  λ w, match jinja_get_template env (loader_view w (loader env)) name with
       | Ok t => (Ok t, emit (ELoad (resolve w (loader env)) name) w)
       | Raise e => (Raise e, w)
       end.

(** [template.render(xmlvar)] *)
Definition render (t : Template) : M string :=
  λ w, let '(r, g) := jinja_render t (xmlvar w) (rng w) in (r, with_rng g w).

(** ** The script *)

(** [defined_filters] *)
Definition defined_filters : list string := ["md5_hash"; "des_hash"; "sha512_hash"].

(** [myconfig_newdir(myconfigdir_name, foldertime)]: creates the main
    [my_configs] folder if required, then the archive folder of this run and
    the sub-directories of the current configuration type.  The type is not
    an argument: the function reads the module-level name [config_type]. *)
Definition myconfig_newdir (myconfigdir_name : PyVal) (foldertime : string) : M string :=
  let! myconfigpath := abspath (Path.join ".." "my_configs") in
  let! present := isdir myconfigpath in
  when (negb present)
    (mkdir myconfigpath ;>
     print "created new myconfig directory") ;>
  let myconfigdir := myconfigpath +:+ "/" +:+ py_str myconfigdir_name +:+ "-" +:+ foldertime in
  let! present := isdir myconfigdir in
  when (negb present)
    (mkdir myconfigdir ;>
     print (Path.nl +:+ "created new archive folder " +:+ py_str myconfigdir_name
            +:+ "-" +:+ foldertime)) ;>
  let! config_type := read_config_type_global in
  let! present := isdir (myconfigdir +:+ "/" +:+ config_type) in
  when (negb present)
    (mkdir (myconfigdir +:+ "/" +:+ config_type) ;>
     mkdir (myconfigdir +:+ "/" +:+ config_type +:+ "/snippets") ;>
     mkdir (myconfigdir +:+ "/" +:+ config_type +:+ "/full") ;>
     print ("created new subdirectories for " +:+ config_type)) ;>
  ret myconfigdir.

(** The custom jinja filters: [md5_hash], [des_hash], [sha512_hash]. *)
Definition md5_hash (txt : string) : Rng → Result string * Rng := md5_crypt_hash txt.
Definition des_hash (txt : string) : Rng → Result string * Rng := des_crypt_hash txt.
Definition sha512_hash (txt : string) : Rng → Result string * Rng := sha512_crypt_hash txt.

(** [template_render(filename, template_path, render_type)] *)
Definition template_render (filename template_path render_type : string) : M string :=
  print ("..creating template for " +:+ filename) ;>
  let env := new_environment (template_path +:+ "/" +:+ render_type) in
  let env := register_filter "md5_hash" md5_hash env in
  let env := register_filter "des_hash" des_hash env in
  let env := register_filter "sha512_hash" sha512_hash env in
  let! template := get_template env filename in
  let! element := render template in
  ret element.

(** [template_save(snippet_name, myconfigdir, config_type, element, render_type)] *)
Definition template_save (snippet_name myconfigdir config_type element render_type : string)
    : M unit :=
  print ("..saving template for " +:+ snippet_name) ;>
  let filename := snippet_name in
  write_file (myconfigdir +:+ "/" +:+ config_type +:+ "/" +:+ render_type +:+ "/" +:+ filename)
             element ;>
  let! present := isfile (myconfigdir +:+ "/my_variables.py") in
  when (negb present)
    (let vfilesrc := "my_variables.py" in
     let vfiledst := myconfigdir +:+ "/my_variables.py" in
     copy vfilesrc vfiledst) ;>
  ret tt.

(** The body of the loop over the load order (one [xml_xpath]). *)
Definition snippet_body (snippet_dict : LoadOrder)
    (template_path myconfig_path config_type xml_xpath : string) : M unit :=
  print (Path.nl +:+ "working with " +:+ xml_xpath) ;>
  let render_type := "snippets" in
  let! first := first_item snippet_dict xml_xpath in
  let snippet_name := first +:+ ".xml" in
  let snippet_path := Path.join (Path.join template_path "snippets") snippet_name in
  let! present := exists_ snippet_path in
  if negb present then
    print snippet_path ;>
    print "this snippet does not actually exist!"
  else
    let! element := template_render snippet_name template_path render_type in
    template_save snippet_name myconfig_path config_type element render_type.

(** [for xml_xpath in snippet_dict: ...] *)
Definition render_snippets (snippet_dict : LoadOrder)
    (template_path myconfig_path config_type : string) : M unit :=
  for_each (dict_keys snippet_dict)
           (snippet_body snippet_dict template_path myconfig_path config_type).

(** The name of the full configuration template. *)
Definition full_template : string := "iron_skillet_day1_template.xml".

(** [replace_variables(config_type, archivetime)] *)
Definition replace_variables (config_type archivetime : string) : M unit :=
  let! template_path :=
    abspath (Path.join (Path.join ".." "templates") config_type) in
  sys_path_append template_path ;>
  let! load_order := import_ (config_type +:+ "_snippet_load_order") in
  let! snippet_dict :=
    if String.eqb config_type "panos" then
      getattr load_order "panos_gold_template_dict"
    else if String.eqb config_type "panorama" then
      getattr load_order "panorama_gold_template_dict"
    else
      (print "Oops. Not a supported config type" ;>
       sys_exit None) in
  let! myconfigdir_name := xmlvar_get "MYCONFIG_DIR" in
  let! myconfig_path := myconfig_newdir myconfigdir_name archivetime in
  render_snippets snippet_dict template_path myconfig_path config_type ;>
  print (Path.nl +:+ "working with full config template") ;>
  let render_type := "full" in
  let filename := full_template in
  let! element := template_render filename template_path render_type in
  template_save filename myconfig_path config_type element render_type ;>
  print (Path.nl +:+ "configs have been created and can be found in " +:+ myconfig_path) ;>
  print ("along with the my_variables.py values used to render the configs" +:+ Path.nl) ;>
  ret tt.

(** [while passwordmatch is False: ...], cut off after [fuel] rounds.  A
    round reads two lines or raises [EOFError], so the loop of the script
    has ended before [fuel] runs out whenever [fuel] exceeds the number of
    lines left; [password_rounds] gives that many. *)
Fixpoint password_loop (fuel : nat) : M unit :=
  match fuel with
  | O => raise OutOfFuel
  | S fuel' =>
      let! password1 := getpass "Enter the superuser administrator account password: " in
      let! password2 := getpass "Enter password again to verify: " in
      if String.eqb password1 password2 then
        xmlvar_set "ADMINISTRATOR_PASSWORD" (PyStr password1)
      else
        print (Path.nl +:+ "Passwords do not match. Please try again." +:+ Path.nl) ;>
        password_loop fuel'
  end.

Definition password_rounds (w : World) : nat := S (length (console_in w)).

Definition collect_password : M unit :=
  λ w, password_loop (password_rounds w) w.

(** The part of [__main__] that runs before the first configuration type. *)
Definition main_prologue : M string :=
  print (Path.repeat_string "=" 80) ;>
  print " " ;>
  print (Path.center "Welcome to Iron-Skillet" 80) ;>
  print " " ;>
  print (Path.repeat_string "=" 80) ;>
  let! archive_time := now_stamp in
  print (Path.nl +:+ "datetime used for folder creation: " +:+ archive_time +:+ Path.nl) ;>
  let! username := input "Enter the superuser administrator account username: " in
  xmlvar_set "ADMINISTRATOR_USERNAME" (PyStr username) ;>
  let! shown := xmlvar_get "ADMINISTRATOR_USERNAME" in
  print (Path.nl +:+ "a phash will be created for superuser " +:+ py_str shown
         +:+ " and added to the config file" +:+ Path.nl) ;>
  collect_password ;>
  ret archive_time.

(** [if __name__ == '__main__': ...] *)
Definition main : M unit :=
  let! archive_time := main_prologue in
  for_each ["panos"; "panorama"]
    (λ config_type,
       bind_config_type_global config_type ;>
       replace_variables config_type archive_time).

(** ** Vocabulary of the properties *)

(** The diagnostic of the unsupported-type branch. *)
Definition diagnostic : event := EPrint "Oops. Not a supported config type".

(** The template directory [replace_variables] computes, and the world in
    which the load-order module is looked up. *)
Definition template_dir (w : World) (config_type : string) : string :=
  Path.abspath (cwd w) (Path.join (Path.join ".." "templates") config_type).

Definition before_import (w : World) (config_type : string) : World :=
  with_sys_path (sys_path w ++ [template_dir w config_type]) w.

(** Whether [__import__] finds the load-order module of a type. *)
Definition importable (w : World) (config_type : string) : option PyModule :=
  let name := config_type +:+ "_snippet_load_order" in
  match sys_modules w !! name with
  | Some m => Some m
  | None => find_module (module_files w) (sys_path w ++ [template_dir w config_type]) name
  end.

(** The claim that an unsupported type ends the run with the diagnostic
    on the console and a failure status. *)
Definition aborts_with_failure_status (out : Result unit * World) : Prop :=
  (∃ e, out.1 = Raise e) ∧ diagnostic ∈ log out.2 ∧ exit_status out.1 ≠ 0%Z.


(** What a computation leaves alone: [R] relates the world before to the
    world after, whatever the result. *)
Definition frames {A} (R : World → World → Prop) (m : M A) : Prop :=
  ∀ w, R w (m w).2.

(** Directories are only added; the working directory and the bound
    configuration type stay. *)
Definition grows (w w' : World) : Prop :=
  cwd w' = cwd w ∧ dirs w ⊆ dirs w' ∧ config_type_global w' = config_type_global w.

(** The console part of a run: [evs] were shown, [rest] is still to be
    typed. *)
Definition typed (evs : list event) (rest : list string) (w : World) : World :=
  with_console_in rest (with_log (log w ++ evs) w).

(** What the operator types in rounds of two entries. *)
Definition entries (pairs : list (string * string)) : list string :=
  flat_map (λ ab, [ab.1; ab.2]) pairs.

(** The two prompts of a round, and a round that ends in the complaint. *)
Definition round_prompts : list event :=
  [ EPrompt "Enter the superuser administrator account password: ";
    EPrompt "Enter password again to verify: " ].

Definition failed_round : list event :=
  round_prompts
  ++ [ EPrint (Path.nl +:+ "Passwords do not match. Please try again." +:+ Path.nl) ].

(** What [__main__] shows before the first password prompt. *)
Definition banner (stamp username : string) : list event :=
  [ EPrint (Path.repeat_string "=" 80);
    EPrint " ";
    EPrint (Path.center "Welcome to Iron-Skillet" 80);
    EPrint " ";
    EPrint (Path.repeat_string "=" 80);
    EPrint (Path.nl +:+ "datetime used for folder creation: " +:+ stamp +:+ Path.nl);
    EPrompt "Enter the superuser administrator account username: ";
    EPrint (Path.nl +:+ "a phash will be created for superuser "
            +:+ py_str (PyStr username) +:+ " and added to the config file" +:+ Path.nl) ].

(** The artifacts saved among some effects. *)
Definition is_write (e : event) : bool :=
  match e with
  | EWrite _ _ => true
  | _ => false
  end.

Definition saves (evs : list event) : list event := List.filter is_write evs.

(** A step that touches no file and saves nothing. *)
Definition quiet (w w' : World) : Prop :=
  cwd w' = cwd w ∧ files w' = files w
  ∧ ∃ evs, log w' = log w ++ evs ∧ saves evs = [].

(** What a run does to the copy of the variables file at [copy_path]: as
    long as nothing is saved the files stay as they are, and a copy that is
    there is not written again. *)
Definition keeps (copy_path : string) (w w' : World) : Prop :=
  cwd w' = cwd w
  ∧ (∃ evs, log w' = log w ++ evs ∧ (saves evs = [] → files w' = files w))
  ∧ (∀ c, files w !! resolve w copy_path = Some c →
          files w' !! resolve w copy_path = Some c).

(** The archive folder of a run. *)
Definition archive_dir (w : World) (myconfigdir_name : PyVal) (archivetime : string) : string :=
  Path.abspath (cwd w) (Path.join ".." "my_configs")
  +:+ "/" +:+ py_str myconfigdir_name +:+ "-" +:+ archivetime.

Fixpoint has_slash (s : string) : bool :=
  match s with
  | "" => false
  | String c r => Ascii.eqb c "/" || has_slash r
  end.

(** The two operations the load order is about: loading (and rendering) a
    template file, and saving an artifact. *)
Inductive op : Type :=
  | Rendered (template : string)
  | Saved (artifact : string).

Definition op_of (e : event) : option op :=
  match e with
  | ELoad searchpath name => Some (Rendered (searchpath +:+ "/" +:+ name))
  | EWrite path _ => Some (Saved path)
  | _ => None
  end.

Definition ops (evs : list event) : list op := omap op_of evs.

(** The effects between two worlds amount to the operations [o]. *)
Definition did (o : list op) (w w' : World) : Prop :=
  cwd w' = cwd w ∧ ∃ evs, log w' = log w ++ evs ∧ ops evs = o.



(** The snippet file an entry of the load order names. *)
Definition snippet_name (d : LoadOrder) (xml_xpath : string) : option string :=
  match dict_get d xml_xpath with
  | Some (first :: _) => Some (first +:+ ".xml")
  | _ => None
  end.

(** The snippet files of a load order, in its order. *)
Definition snippet_names (d : LoadOrder) : list string :=
  omap (snippet_name d) (dict_keys d).


(** ** Vocabulary of the further properties *)

(** Effects that change no file: console lines, new directories and
    template loads. *)
Definition is_notice (e : event) : bool :=
  match e with
  | EWrite _ _ | ECopy _ _ => false
  | _ => true
  end.

(** A step that leaves the files and the interpreter state the script works
    with as they are; directories may have been added. *)
Definition calm (w w' : World) : Prop :=
  cwd w' = cwd w ∧ xmlvar w' = xmlvar w ∧ console_in w' = console_in w
  ∧ timestamp w' = timestamp w ∧ config_type_global w' = config_type_global w
  ∧ sys_path w' = sys_path w ∧ module_files w' = module_files w
  ∧ files w' = files w ∧ dirs w ⊆ dirs w'
  ∧ ∃ evs, log w' = log w ++ evs ∧ forallb is_notice evs = true.

(** What no step after the bookkeeping of the import undoes: the variable
    set, the console input, the clock, the working directory, the bound
    type and the module search path stay; directories and files are only
    added or rewritten, never removed; the log only grows. *)
Definition steady (w w' : World) : Prop :=
  cwd w' = cwd w ∧ xmlvar w' = xmlvar w ∧ console_in w' = console_in w
  ∧ timestamp w' = timestamp w ∧ config_type_global w' = config_type_global w
  ∧ sys_path w' = sys_path w ∧ module_files w' = module_files w
  ∧ dirs w ⊆ dirs w'
  ∧ (∀ q, is_Some (files w !! q) → is_Some (files w' !! q))
  ∧ ∃ evs, log w' = log w ++ evs.

(** Files change below the folder [a] only. *)
Definition outside (a : string) (w w' : World) : Prop :=
  cwd w' = cwd w
  ∧ ∀ q, (∀ x, q ≠ resolve w (a +:+ "/" +:+ x)) → files w' !! q = files w !! q.

(** The copies of the variables file among some effects. *)
Definition is_copy (e : event) : bool :=
  match e with
  | ECopy _ _ => true
  | _ => false
  end.

Definition copies (evs : list event) : list event := List.filter is_copy evs.

(** The variables file is copied at most once to [copy_path], and not at
    all when a copy is there, as long as [copy_path] is no directory. *)
Definition copied_once (copy_path : string) (w w' : World) : Prop :=
  cwd w' = cwd w ∧ dirs w ⊆ dirs w'
  ∧ (is_file w copy_path = true → is_file w' copy_path = true)
  ∧ ∃ evs, log w' = log w ++ evs
           ∧ (is_dir w' copy_path = false →
              (length (copies evs) ≤ if is_file w copy_path then 0 else 1)%nat
              ∧ (copies evs ≠ [] → is_file w' copy_path = true)).

(** The directories [myconfig_newdir] may create. *)
Definition layout (w : World) (myconfigdir_name : PyVal) (foldertime : string)
    : gset string :=
  let a := archive_dir w myconfigdir_name foldertime in
  {[ resolve w (Path.abspath (cwd w) (Path.join ".." "my_configs")); resolve w a ]}
  ∪ match config_type_global w with
    | Some g => {[ resolve w (a +:+ "/" +:+ g);
                   resolve w (a +:+ "/" +:+ g +:+ "/snippets");
                   resolve w (a +:+ "/" +:+ g +:+ "/full") ]}
    | None => ∅
    end.

Fixpoint count_slash (s : string) : nat :=
  match s with
  | "" => 0
  | String c r => (if Ascii.eqb c "/" then 1 else 0) + count_slash r
  end.

(** Directories were added, all of them from [S]; nothing else of the file
    system changed. *)
Definition added (S : gset string) (w w' : World) : Prop :=
  cwd w' = cwd w ∧ config_type_global w' = config_type_global w
  ∧ files w' = files w ∧ dirs w ⊆ dirs w' ∧ dirs w' ⊆ dirs w ∪ S.


(** What the dialogue with the operator may change: the console and the
    two credentials of the variable set.  The file system, the working
    directory, the clock and every other variable stay. *)
Definition prompting (w w' : World) : Prop :=
  cwd w' = cwd w ∧ dirs w' = dirs w ∧ files w' = files w
  ∧ timestamp w' = timestamp w
  ∧ (∀ k, k ≠ "ADMINISTRATOR_USERNAME" → k ≠ "ADMINISTRATOR_PASSWORD" →
          xmlvar w' !! k = xmlvar w !! k)
  ∧ ∃ evs, log w' = log w ++ evs ∧ forallb is_notice evs = true.

(** ** Vocabulary of the load order *)



(** The directories stay; and they stay while files change below the
    folder [a] only. *)
Definition same_dirs (w w' : World) : Prop := dirs w' = dirs w.

Definition saving (a : string) (w w' : World) : Prop :=
  same_dirs w w' ∧ outside a w w'.

(** The path under which the loop looks for the snippet [name], and the
    snippets of a load order that are there, in the order of the load
    order. *)
Definition snippet_path (template_path name : string) : string :=
  Path.join (Path.join template_path "snippets") name.

Definition present_snippets (w : World) (template_path : string) (d : LoadOrder)
    : list string :=
  List.filter (λ name, path_exists w (snippet_path template_path name)) (snippet_names d).
End Script.

(** ** A platform and worlds to run the script on

    [sample_platform] is a small instance of the interface: variable values
    are strings, the random source is a counter, a hash is a tag, the
    counter and the text, and the engine returns the text of a template as
    it is (what jinja2 does with a template that has no expression in it).
    It is there to run the embedding on concrete inputs. *)

Definition sample_salt (tag txt : string) : Filter nat :=
  λ _ n, (Ok (tag +:+ Path.repeat_string "x" n +:+ "$" +:+ txt), S n).

#[local] Instance sample_platform : Platform := {|
  PyVal := string;
  PyStr := λ s, s;
  py_str := λ s, s;
  Rng := nat;
  md5_crypt_hash := λ txt, sample_salt "$1$" txt txt;
  des_crypt_hash := λ txt, sample_salt "" txt txt;
  sha512_crypt_hash := λ txt, sample_salt "$6$" txt txt;
  Template := string;
  jinja_get_template := λ env view name,
    match view !! (loader env +:+ "/" +:+ name) with
    | Some source => Ok source
    | None => Raise (TemplateNotFound name)
    end;
  jinja_render := λ t _ g, (Ok t, g)
|}.

Module Sample.

Definition root : string := "/opt/iron-skillet".

Definition panos_dict : LoadOrder :=
  [ ("/config/devices/entry/deviceconfig/system", ["device_system"; "9.0"]);
    ("/config/shared/log-settings", ["log_settings"; "9.0"]);
    ("/config/devices/entry/vsys/entry/tag", ["tag"; "9.0"]) ].

Definition panorama_dict : LoadOrder :=
  [ ("/config/panorama/log-settings", ["panorama_log_settings"; "9.0"]) ].

(** A checkout with both template trees; the panos tree lacks the
    [log_settings] snippet that its load order names. *)
Definition checkout : World := {|
  cwd := root +:+ "/tools";
  dirs := list_to_set
    [ "/"; "/opt"; root; root +:+ "/tools"; root +:+ "/templates";
      root +:+ "/templates/panos"; root +:+ "/templates/panos/snippets";
      root +:+ "/templates/panos/full";
      root +:+ "/templates/panorama"; root +:+ "/templates/panorama/snippets";
      root +:+ "/templates/panorama/full" ];
  files := list_to_map
    [ (root +:+ "/tools/my_variables.py", "xmlvar = {}");
      (root +:+ "/templates/panos/snippets/device_system.xml", "<system/>");
      (root +:+ "/templates/panos/snippets/tag.xml", "<tag/>");
      (root +:+ "/templates/panos/full/iron_skillet_day1_template.xml", "<config/>");
      (root +:+ "/templates/panorama/snippets/panorama_log_settings.xml", "<log-settings/>");
      (root +:+ "/templates/panorama/full/iron_skillet_day1_template.xml", "<config/>") ];
  log := [];
  console_in := ["admin"; "secret"; "secrat"; "secret"; "secret"];
  timestamp := "20181105_101500";
  xmlvar := {[ "MYCONFIG_DIR" := "my_config" ]};
  config_type_global := None;
  sys_path := [root +:+ "/tools"];
  sys_modules := ∅;
  module_files := list_to_map
    [ (root +:+ "/templates/panos/panos_snippet_load_order.py",
       {[ "panos_gold_template_dict" := panos_dict ]});
      (root +:+ "/templates/panorama/panorama_snippet_load_order.py",
       {[ "panorama_gold_template_dict" := panorama_dict ]}) ];
  rng := 0
|}.

(** The same checkout in the middle of the loop over the configuration
    types, with [config_type] bound. *)
Definition checkout_in (config_type : string) : World :=
  with_config_type_global (Some config_type) checkout.

(** The same checkout with a load-order module for a type the script
    does not know. *)
Definition checkout_with_vpn : World := {|
  cwd := cwd checkout; dirs := dirs checkout; files := files checkout;
  log := []; console_in := console_in checkout; timestamp := timestamp checkout;
  xmlvar := xmlvar checkout; config_type_global := Some "vpn";
  sys_path := sys_path checkout; sys_modules := ∅;
  module_files :=
    <[ root +:+ "/templates/vpn/vpn_snippet_load_order.py" :=
         {[ "vpn_gold_template_dict" := panos_dict ]} ]> (module_files checkout);
  rng := 0
|}.

(** The checkout without any template file. *)
Definition bare : World := {|
  cwd := cwd checkout; dirs := dirs checkout;
  files := {[ root +:+ "/tools/my_variables.py" := "xmlvar = {}" ]};
  log := []; console_in := []; timestamp := timestamp checkout;
  xmlvar := xmlvar checkout; config_type_global := Some "panos";
  sys_path := sys_path checkout; sys_modules := ∅;
  module_files := module_files checkout;
  rng := 0
|}.

Definition stamp : string := "20181105_101500".

Definition archive : string := root +:+ "/my_configs/my_config-20181105_101500".



(** The checkout, with [config_type] bound, once the folders of the run
    are there. *)
Definition prepared : World :=
  (myconfig_newdir "my_config" stamp (checkout_in "panos")).2.

End Sample.

(** ** Reasoning about computations *)

Section Properties.
Context `{Platform}.

Lemma bind_ok {A B} (m : M A) (k : A → M B) w a w1 :
  m w = (Ok a, w1) → bind m k w = k a w1.
Proof. unfold bind. by intros ->. Qed.

Lemma bind_raise {A B} (m : M A) (k : A → M B) w e w1 :
  m w = (Raise e, w1) → bind m k w = (Raise e, w1).
Proof. unfold bind. by intros ->. Qed.

Lemma bind_inv_ok {A B} (m : M A) (k : A → M B) w b w' :
  bind m k w = (Ok b, w') → ∃ a w1, m w = (Ok a, w1) ∧ k a w1 = (Ok b, w').
Proof.
  unfold bind. destruct (m w) as [[a|e] w1]; [eauto | discriminate].
Qed.

Lemma replace_variables_not_importable config_type archivetime w :
  importable w config_type = None →
  replace_variables config_type archivetime w
  = (Raise (ModuleNotFoundError (config_type +:+ "_snippet_load_order")),
     before_import w config_type).
Proof.
  unfold importable, replace_variables, bind, abspath, sys_path_append, import_; simpl.
  fold (template_dir w config_type).
  destruct (sys_modules w !! _); [done|]. by intros ->.
Qed.

Lemma replace_variables_unsupported config_type archivetime w m :
  config_type ≠ "panos" → config_type ≠ "panorama" →
  importable w config_type = Some m →
  ∃ w1, replace_variables config_type archivetime w
        = (Raise (SystemExit None), emit diagnostic w1)
      ∧ dirs w1 = dirs w ∧ files w1 = files w ∧ log w1 = log w.
Proof.
  intros Hp Hq. apply String.eqb_neq in Hp, Hq.
  unfold importable, replace_variables, bind, abspath, sys_path_append, import_; simpl.
  fold (template_dir w config_type). rewrite Hp, Hq.
  destruct (sys_modules w !! _) as [m0|].
  - intros _. eexists. split; [reflexivity|]. done.
  - intros ->. eexists. split; [reflexivity|]. done.
Qed.

(** C6.  A configuration type other than panos and panorama ends the run
    before [myconfig_newdir] is reached: the run ends with an exception, the
    directories and the files are those of the start, and the only thing the
    run may have done is print the diagnostic.  So neither my_configs, nor
    the archive folder, nor a sub-directory of the type has come into
    existence. *)
Theorem unsupported_mode_creates_nothing config_type archivetime w :
  config_type ≠ "panos" → config_type ≠ "panorama" →
  let out := replace_variables config_type archivetime w in
  (∃ e, out.1 = Raise e)
  ∧ dirs out.2 = dirs w ∧ files out.2 = files w
  ∧ (log out.2 = log w ∨ log out.2 = log w ++ [diagnostic]).
Proof.
  intros Hp Hq out. subst out.
  destruct (importable w config_type) as [m|] eqn:Him.
  - destruct (replace_variables_unsupported config_type archivetime w m Hp Hq Him)
      as (w1 & -> & Hd & Hf & Hl); simpl.
    rewrite Hl. eauto 6.
  - rewrite (replace_variables_not_importable _ _ _ Him); simpl. eauto 6.
Qed.

(** C5, as the script has it.  When the load-order module of an unsupported
    type can be imported, the run reaches the last branch: it prints the
    diagnostic and leaves through [sys.exit()] without an argument, and the
    exit status of the process is 0. *)
Theorem unsupported_mode_exit_status config_type archivetime w :
  config_type ≠ "panos" → config_type ≠ "panorama" →
  is_Some (importable w config_type) →
  let out := replace_variables config_type archivetime w in
  out.1 = Raise (SystemExit None)
  ∧ log out.2 = log w ++ [diagnostic]
  ∧ exit_status out.1 = 0%Z.
Proof.
  intros Hp Hq [m Him] out. subst out.
  destruct (replace_variables_unsupported config_type archivetime w m Hp Hq Him)
    as (w1 & -> & Hd & Hf & Hl); simpl.
  by rewrite Hl.
Qed.


Lemma run_eta {A} (m : M A) w r : (m w).1 = r → m w = (r, (m w).2).
Proof. intros <-. by destruct (m w). Qed.

(** *** Frames: what a computation leaves alone *)

Lemma frames_ret {A} R `{!Reflexive R} (a : A) : frames R (ret a).
Proof. intros w. simpl. done. Qed.

Lemma frames_raise {A} R `{!Reflexive R} e : frames R (raise (A:=A) e).
Proof. intros w. simpl. done. Qed.

Lemma frames_bind {A B} R `{!Transitive R} (m : M A) (k : A → M B) :
  frames R m → (∀ a, frames R (k a)) → frames R (bind m k).
Proof.
  intros Hm Hk w. unfold bind. specialize (Hm w).
  destruct (m w) as [[a|e] w1]; simpl in *; [|done].
  etrans; [done|]. apply Hk.
Qed.

Lemma frames_when R `{!Reflexive R} c (body : M unit) :
  frames R body → frames R (when c body).
Proof. intros Hb. destruct c; simpl; [done|]. by apply frames_ret. Qed.

Lemma frames_for_each {A} R `{!PreOrder R} (xs : list A) (body : A → M unit) :
  (∀ x, frames R (body x)) → frames R (for_each xs body).
Proof.
  intros Hb. induction xs as [|x xs IH]; simpl.
  - apply frames_ret. apply _.
  - apply frames_bind; [apply _|apply Hb|]. intros _. apply IH.
Qed.

Lemma frames_run {A} R (m : M A) w r w' : frames R m → m w = (r, w') → R w w'.
Proof. intros Hm Hrun. specialize (Hm w). by rewrite Hrun in Hm. Qed.

(** *** Directories only grow *)

#[local] Instance grows_preorder : PreOrder grows.
Proof.
  split.
  - by intros w.
  - intros w1 w2 w3 (?&?&?) (?&?&?).
    repeat split; [congruence | set_solver | congruence].
Qed.

Lemma is_dir_grows w w' p : grows w w' → is_dir w p = true → is_dir w' p = true.
Proof.
  intros (Hc & Hd & _). unfold is_dir, resolve. rewrite Hc.
  rewrite !bool_decide_eq_true. set_solver.
Qed.

Lemma mkdir_inv_ok p w w' :
  mkdir p w = (Ok tt, w') →
  w' = emit (EMkdir (resolve w p)) (with_dirs ({[resolve w p]} ∪ dirs w) w).
Proof.
  unfold mkdir. destruct (path_exists w p); [done|].
  destruct (parent_error w _); [done|]. by intros [= <-].
Qed.

Lemma mkdir_grows p : frames grows (mkdir p).
Proof.
  intros w. unfold mkdir. destruct (path_exists w p); [done|].
  destruct (parent_error w _); [done|].
  repeat split; simpl. set_solver.
Qed.

Lemma print_grows s : frames grows (print s).
Proof. by intros w. Qed.

Lemma mkdir_is_dir p w w' : mkdir p w = (Ok tt, w') → is_dir w' p = true.
Proof.
  intros ->%mkdir_inv_ok. unfold is_dir, resolve; simpl.
  rewrite bool_decide_eq_true. set_solver.
Qed.

(** [if os.path.isdir(p) is False: os.mkdir(p); ...]: when it ends normally
    the directory is there. *)
Lemma ensure_dir p (body : M unit) w w1 :
  frames grows body →
  when (negb (is_dir w p)) (bind (mkdir p) (λ _, body)) w = (Ok tt, w1) →
  grows w w1 ∧ is_dir w1 p = true.
Proof.
  intros Hbody. destruct (is_dir w p) eqn:Hd; simpl.
  - by intros [= <-].
  - intros (a & w0 & Hmk & Hb)%bind_inv_ok.
    pose proof (frames_run _ _ _ _ _ Hbody Hb) as Hg.
    pose proof (frames_run _ _ _ _ _ (mkdir_grows p) Hmk) as Hg0.
    destruct a. split.
    { transitivity w0; assumption. }
    eapply is_dir_grows; [exact Hg|]. by eapply mkdir_is_dir.
Qed.

Lemma myconfig_newdir_ok name t w p w' :
  myconfig_newdir name t w = (Ok p, w') →
  ∃ c, p = Path.abspath (cwd w) (Path.join ".." "my_configs") +:+ "/" +:+ py_str name +:+ "-" +:+ t
     ∧ grows w w'
     ∧ config_type_global w = Some c
     ∧ is_dir w' (Path.abspath (cwd w) (Path.join ".." "my_configs")) = true
     ∧ is_dir w' p = true
     ∧ is_dir w' (p +:+ "/" +:+ c) = true.
Proof.
  unfold myconfig_newdir.
  set (mcp := Path.abspath (cwd w) (Path.join ".." "my_configs")).
  intros Hrun.
  apply bind_inv_ok in Hrun as (a & w0 & [= <- <-] & Hrun). fold mcp in Hrun.
  apply bind_inv_ok in Hrun as (a & w0 & [= <- <-] & Hrun).
  apply bind_inv_ok in Hrun as ([] & w1 & H1 & Hrun).
  apply ensure_dir in H1 as [Hg1 Hd1]; [|apply print_grows].
  apply bind_inv_ok in Hrun as (a & w0 & [= <- <-] & Hrun).
  apply bind_inv_ok in Hrun as ([] & w2 & H2 & Hrun).
  apply ensure_dir in H2 as [Hg2 Hd2]; [|apply print_grows].
  apply bind_inv_ok in Hrun as (c & w0 & Hc & Hrun).
  unfold read_config_type_global in Hc.
  destruct (config_type_global w2) as [c0|] eqn:Hglob; [|done].
  injection Hc as <- <-.
  apply bind_inv_ok in Hrun as (a & w0 & [= <- <-] & Hrun).
  apply bind_inv_ok in Hrun as ([] & w3 & H3 & Hrun).
  apply ensure_dir in H3 as [Hg3 Hd3].
  2:{ apply frames_bind; [apply _|apply mkdir_grows|intros _].
      apply frames_bind; [apply _|apply mkdir_grows|intros _]. apply print_grows. }
  injection Hrun as <- <-.
  exists c0. split; [done|].
  assert (Hg : grows w w3).
  { transitivity w1; [assumption|]. transitivity w2; assumption. }
  split; [done|]. split.
  { destruct Hg1 as (_&_&E1), Hg2 as (_&_&E2). congruence. }
  split; [|split].
  - eapply is_dir_grows; [|exact Hd1]. transitivity w2; assumption.
  - eapply is_dir_grows; [exact Hg3|exact Hd2].
  - exact Hd3.
Qed.

(** C8.  A second call of [myconfig_newdir] with the same arguments, after a
    first call that ended normally, returns the same archive path, raises
    nothing and leaves the whole world (the directory tree included) as the
    first call left it. *)
Theorem myconfig_newdir_idempotent myconfigdir_name foldertime w p w' :
  myconfig_newdir myconfigdir_name foldertime w = (Ok p, w') →
  myconfig_newdir myconfigdir_name foldertime w' = (Ok p, w').
Proof.
  intros (c & -> & (Hcwd & _ & Hglob) & Hc & Hd1 & Hd2 & Hd3)%myconfig_newdir_ok.
  unfold myconfig_newdir, bind, abspath, isdir, read_config_type_global.
  rewrite Hcwd, Hd1; simpl. rewrite Hd2; simpl.
  rewrite Hglob, Hc, Hd3. done.
Qed.

(** *** Worlds *)

Lemma world_eq (w1 w2 : World) :
  cwd w1 = cwd w2 → dirs w1 = dirs w2 → files w1 = files w2 → log w1 = log w2 →
  console_in w1 = console_in w2 → timestamp w1 = timestamp w2 → xmlvar w1 = xmlvar w2 →
  config_type_global w1 = config_type_global w2 → sys_path w1 = sys_path w2 →
  sys_modules w1 = sys_modules w2 → module_files w1 = module_files w2 → rng w1 = rng w2 →
  w1 = w2.
Proof. destruct w1, w2; simpl; intros; by subst. Qed.

Ltac world_fields :=
  cbn [cwd dirs files log console_in timestamp xmlvar config_type_global sys_path
       sys_modules module_files rng with_dirs with_files with_log with_console_in
       with_xmlvar with_config_type_global with_sys_path with_sys_modules with_rng
       emit typed].

Ltac same_world :=
  apply world_eq; try reflexivity; world_fields; rewrite <- ?app_assoc; reflexivity.

(** *** The password loop *)

Lemma typed_typed evs1 r1 evs2 r2 w :
  typed evs2 r2 (typed evs1 r1 w) = typed (evs1 ++ evs2) r2 w.
Proof. same_world. Qed.

Lemma typed_nil w : typed [] (console_in w) w = w.
Proof. apply world_eq; try reflexivity. world_fields. by rewrite app_nil_r. Qed.

Lemma read_line_next prompt l r w :
  console_in w = l :: r → read_line prompt w = (Ok l, typed [EPrompt prompt] r w).
Proof. intros Hin. unfold read_line. by rewrite Hin. Qed.

Lemma read_line_eof prompt w :
  console_in w = [] → read_line prompt w = (Raise EOFError, typed [EPrompt prompt] [] w).
Proof.
  intros Hin. unfold read_line. rewrite Hin. f_equal.
  apply world_eq; try reflexivity. by world_fields.
Qed.

Lemma print_typed line w : print line w = (Ok tt, typed [EPrint line] (console_in w) w).
Proof. reflexivity. Qed.

Lemma password_round_mismatch fuel a b rest w :
  a ≠ b → console_in w = a :: b :: rest →
  password_loop (S fuel) w = password_loop fuel (typed failed_round rest w).
Proof.
  intros Hne%String.eqb_neq Hin.
  change (password_loop (S fuel)) with
    (bind (getpass "Enter the superuser administrator account password: ") (λ password1,
     bind (getpass "Enter password again to verify: ") (λ password2,
       if String.eqb password1 password2 then
         xmlvar_set "ADMINISTRATOR_PASSWORD" (PyStr password1)
       else
         bind (print (Path.nl +:+ "Passwords do not match. Please try again." +:+ Path.nl))
              (λ _, password_loop fuel)))).
  erewrite bind_ok by (by apply read_line_next).
  erewrite bind_ok by (by apply read_line_next).
  rewrite Hne. erewrite bind_ok by apply print_typed.
  f_equal. same_world.
Qed.

Lemma password_round_match fuel p rest w :
  console_in w = p :: p :: rest →
  password_loop (S fuel) w
  = (Ok tt, with_xmlvar (<["ADMINISTRATOR_PASSWORD" := PyStr p]> (xmlvar w))
                        (typed round_prompts rest w)).
Proof.
  intros Hin.
  change (password_loop (S fuel)) with
    (bind (getpass "Enter the superuser administrator account password: ") (λ password1,
     bind (getpass "Enter password again to verify: ") (λ password2,
       if String.eqb password1 password2 then
         xmlvar_set "ADMINISTRATOR_PASSWORD" (PyStr password1)
       else
         bind (print (Path.nl +:+ "Passwords do not match. Please try again." +:+ Path.nl))
              (λ _, password_loop fuel)))).
  erewrite bind_ok by (by apply read_line_next).
  erewrite bind_ok by (by apply read_line_next).
  rewrite String.eqb_refl. unfold xmlvar_set. f_equal. same_world.
Qed.

Lemma password_round_eof fuel tail w :
  (length tail ≤ 1)%nat → console_in w = tail →
  password_loop (S fuel) w
  = (Raise EOFError, typed (firstn (S (length tail)) round_prompts) [] w).
Proof.
  intros Hlen Hin.
  change (password_loop (S fuel)) with
    (bind (getpass "Enter the superuser administrator account password: ") (λ password1,
     bind (getpass "Enter password again to verify: ") (λ password2,
       if String.eqb password1 password2 then
         xmlvar_set "ADMINISTRATOR_PASSWORD" (PyStr password1)
       else
         bind (print (Path.nl +:+ "Passwords do not match. Please try again." +:+ Path.nl))
              (λ _, password_loop fuel)))).
  destruct tail as [|a [|b tail]]; simpl in Hlen; [| |lia].
  - erewrite bind_raise by (by apply read_line_eof). done.
  - erewrite bind_ok by (by apply read_line_next).
    erewrite bind_raise by (by apply read_line_eof).
    f_equal. same_world.
Qed.

Lemma password_rounds_mismatch pairs : ∀ fuel tail w,
  Forall (λ ab, ab.1 ≠ ab.2) pairs →
  console_in w = entries pairs ++ tail →
  password_loop (length pairs + fuel)%nat w
  = password_loop fuel (typed (flat_map (λ _, failed_round) pairs) tail w).
Proof.
  induction pairs as [|[a b] pairs IH]; intros fuel tail w Hall Hin.
  - simpl in Hin. change (flat_map _ []) with (@nil event). simpl length. simpl Nat.add.
    by rewrite <- Hin, typed_nil.
  - apply Forall_cons in Hall as [Hne Hall]. simpl in Hin, Hne.
    change (length ((a, b) :: pairs) + fuel)%nat with (S (length pairs + fuel)).
    rewrite (password_round_mismatch _ a b (entries pairs ++ tail)); [|done..].
    rewrite (IH _ tail); [|done..]. by rewrite typed_typed.
Qed.

(** The model of the loop is never cut off: the fuel [collect_password]
    gives is more than the loop of the script can use. *)
Lemma password_loop_enough_fuel fuel : ∀ w,
  (length (console_in w) < fuel)%nat → (password_loop fuel w).1 ≠ Raise OutOfFuel.
Proof.
  induction fuel as [|fuel IH]; intros w Hlen; [lia|].
  destruct (console_in w) as [|a [|b rest]] eqn:Hin.
  - rewrite (password_round_eof fuel [] w); [done|simpl; lia|done].
  - rewrite (password_round_eof fuel [a] w); [done|simpl; lia|done].
  - destruct (decide (a = b)) as [->|Hne].
    + by rewrite (password_round_match fuel b rest w).
    + rewrite (password_round_mismatch fuel a b rest w) by done.
      apply IH. simpl in *. lia.
Qed.

Lemma collect_password_enough_fuel w : (collect_password w).1 ≠ Raise OutOfFuel.
Proof. apply password_loop_enough_fuel. unfold password_rounds. lia. Qed.

Lemma entries_length pairs : length (entries pairs) = (2 * length pairs)%nat.
Proof. induction pairs as [|[a b] pairs IH]; simpl in *; lia. Qed.

Lemma collect_password_match w pairs p rest :
  Forall (λ ab, ab.1 ≠ ab.2) pairs →
  console_in w = entries pairs ++ p :: p :: rest →
  collect_password w
  = (Ok tt, with_xmlvar (<["ADMINISTRATOR_PASSWORD" := PyStr p]> (xmlvar w))
                        (typed (flat_map (λ _, failed_round) pairs ++ round_prompts) rest w)).
Proof.
  intros Hall Hin. unfold collect_password, password_rounds.
  assert (Hfuel : S (length (console_in w))
                 = (length pairs + S (length pairs + S (S (length rest))))%nat).
  { rewrite Hin, length_app, entries_length. simpl. lia. }
  rewrite Hfuel.
  rewrite (password_rounds_mismatch pairs _ (p :: p :: rest)); [|done..].
  rewrite (password_round_match _ p rest); [|done].
  f_equal. same_world.
Qed.

Lemma collect_password_eof w pairs tail :
  Forall (λ ab, ab.1 ≠ ab.2) pairs →
  (length tail ≤ 1)%nat →
  console_in w = entries pairs ++ tail →
  collect_password w
  = (Raise EOFError,
     typed (flat_map (λ _, failed_round) pairs ++ firstn (S (length tail)) round_prompts) [] w).
Proof.
  intros Hall Hlen Hin. unfold collect_password, password_rounds.
  assert (Hfuel : S (length (console_in w))
                 = (length pairs + S (length pairs + length tail))%nat).
  { rewrite Hin, length_app, entries_length. simpl. lia. }
  rewrite Hfuel.
  rewrite (password_rounds_mismatch pairs _ tail); [|done..].
  rewrite (password_round_eof _ tail); [|done..].
  by rewrite typed_typed.
Qed.

Lemma xmlvar_get_ok key v w : xmlvar w !! key = Some v → xmlvar_get key w = (Ok v, w).
Proof. intros Hv. unfold xmlvar_get. by rewrite Hv. Qed.

(** C9.  Whatever the operator types: after the user name, every round of
    two unequal entries is answered by the complaint and a new round, for
    any number of rounds; the first round of two equal entries ends the
    loop, [ADMINISTRATOR_PASSWORD] is then that entry, and the lines typed
    after it are left unread.  Up to that point the run has only prompted
    and printed: the world differs from the initial one by the console and
    the two credentials.  When the input ends before two equal entries were
    given, the loop does not end normally and the password is not set. *)
Theorem password_confirmed_before_rendering w username pairs :
  Forall (λ ab, ab.1 ≠ ab.2) pairs →
  (∀ p rest,
     console_in w = username :: entries pairs ++ p :: p :: rest →
     main_prologue w
     = (Ok (timestamp w),
        with_xmlvar (<["ADMINISTRATOR_PASSWORD" := PyStr p]>
                       (<["ADMINISTRATOR_USERNAME" := PyStr username]> (xmlvar w)))
          (typed (banner (timestamp w) username
                  ++ flat_map (λ _, failed_round) pairs ++ round_prompts) rest w)))
  ∧ (∀ tail,
       (length tail ≤ 1)%nat →
       console_in w = username :: entries pairs ++ tail →
       main_prologue w
       = (Raise EOFError,
          with_xmlvar (<["ADMINISTRATOR_USERNAME" := PyStr username]> (xmlvar w))
            (typed (banner (timestamp w) username
                    ++ flat_map (λ _, failed_round) pairs
                    ++ firstn (S (length tail)) round_prompts) [] w))).
Proof.
  intros Hall. split.
  - intros p rest Hin. unfold main_prologue.
    do 5 (erewrite bind_ok by apply print_typed).
    erewrite bind_ok by reflexivity.
    erewrite bind_ok by apply print_typed.
    erewrite bind_ok by (apply read_line_next; exact Hin).
    erewrite bind_ok by reflexivity.
    erewrite bind_ok by (apply xmlvar_get_ok, lookup_insert_eq).
    erewrite bind_ok by apply print_typed.
    erewrite bind_ok by (by apply (collect_password_match _ pairs p rest)).
    unfold ret. f_equal. same_world.
  - intros tail Hlen Hin. unfold main_prologue.
    do 5 (erewrite bind_ok by apply print_typed).
    erewrite bind_ok by reflexivity.
    erewrite bind_ok by apply print_typed.
    erewrite bind_ok by (apply read_line_next; exact Hin).
    erewrite bind_ok by reflexivity.
    erewrite bind_ok by (apply xmlvar_get_ok, lookup_insert_eq).
    erewrite bind_ok by apply print_typed.
    erewrite bind_raise by (by apply (collect_password_eof _ pairs tail)).
    f_equal. same_world.
Qed.

(** *** The copy of the variables file *)

Lemma has_slash_app a b : has_slash (a +:+ b) = has_slash a || has_slash b.
Proof. induction a as [|c a IH]; simpl; [done|]. by rewrite IH, orb_assoc. Qed.

Lemma startswith_slash_app p a b :
  Path.startswith "/" (p +:+ "/" +:+ a) = Path.startswith "/" (p +:+ "/" +:+ b).
Proof. by destruct p. Qed.

(** Two paths below the same directory resolve to the same file only when
    they are the same below it. *)
Lemma resolve_below_inj w p a b :
  resolve w (p +:+ "/" +:+ a) = resolve w (p +:+ "/" +:+ b) → a = b.
Proof.
  unfold resolve, Path.join. rewrite (startswith_slash_app p a b).
  destruct (Path.startswith "/" _).
  - intros Heq. by repeat apply String.app_inj in Heq.
  - destruct (_ || _); intros Heq; by repeat apply String.app_inj in Heq.
Qed.

Lemma artifact_is_not_the_copy w myconfigdir config_type render_type filename :
  resolve w (myconfigdir +:+ "/" +:+ config_type +:+ "/" +:+ render_type +:+ "/" +:+ filename)
  ≠ resolve w (myconfigdir +:+ "/my_variables.py").
Proof.
  intros Heq.
  change (myconfigdir +:+ "/my_variables.py")
    with (myconfigdir +:+ "/" +:+ "my_variables.py") in Heq.
  apply resolve_below_inj in Heq.
  apply (f_equal has_slash) in Heq. rewrite has_slash_app in Heq. simpl in Heq.
  by rewrite orb_true_r in Heq.
Qed.

Lemma saves_app_nil evs1 evs2 :
  saves (evs1 ++ evs2) = [] → saves evs1 = [] ∧ saves evs2 = [].
Proof. unfold saves. rewrite List.filter_app. apply app_eq_nil. Qed.

#[local] Instance quiet_preorder : PreOrder quiet.
Proof.
  split.
  - intros w. repeat split. exists []. by rewrite app_nil_r.
  - intros w1 w2 w3 (Hc1 & Hf1 & evs1 & Hl1 & Hs1) (Hc2 & Hf2 & evs2 & Hl2 & Hs2).
    repeat split; [congruence..|]. exists (evs1 ++ evs2).
    rewrite Hl2, Hl1, app_assoc. split; [done|].
    unfold saves in *. by rewrite List.filter_app, Hs1, Hs2.
Qed.

#[local] Instance keeps_preorder copy_path : PreOrder (keeps copy_path).
Proof.
  split.
  - intros w. repeat split; [|done]. exists []. by rewrite app_nil_r.
  - intros w1 w2 w3 (Hc1 & (evs1 & Hl1 & Hs1) & Hk1) (Hc2 & (evs2 & Hl2 & Hs2) & Hk2).
    split; [congruence|]. split.
    + exists (evs1 ++ evs2). rewrite Hl2, Hl1, app_assoc. split; [done|].
      intros [Hn1 Hn2]%saves_app_nil. rewrite Hs2, Hs1; done.
    + intros c Hc. unfold resolve in *. rewrite Hc1 in Hk2. by apply Hk2, Hk1.
Qed.

Lemma quiet_keeps copy_path w w' : quiet w w' → keeps copy_path w w'.
Proof.
  intros (Hc & Hf & evs & Hl & Hs). split; [done|]. split.
  - exists evs. done.
  - intros c. by rewrite Hf.
Qed.

Lemma frames_weaken {A} (R S : World → World → Prop) (m : M A) :
  (∀ w w', R w w' → S w w') → frames R m → frames S m.
Proof. intros HRS Hm w. apply HRS, Hm. Qed.

Lemma frames_apply {A} R (m : M A) w : frames R m → R w (m w).2.
Proof. intros Hm. apply Hm. Qed.

Lemma quiet_same w : quiet w w.
Proof. reflexivity. Qed.

Lemma quiet_intro w w' evs :
  cwd w' = cwd w → files w' = files w → log w' = log w ++ evs → saves evs = [] →
  quiet w w'.
Proof. intros. repeat split; [done..|]. by exists evs. Qed.

Lemma quiet_emit e w : is_write e = false → quiet w (emit e w).
Proof.
  intros He. apply (quiet_intro _ _ [e]); [done..|].
  unfold saves; simpl. by rewrite He.
Qed.

Ltac quiet_prim :=
  intros ?w; repeat case_match;
  first [ apply quiet_same
        | eapply (quiet_intro _ _ [_]); reflexivity
        | apply (quiet_intro _ _ []);
            [reflexivity | reflexivity | symmetry; apply app_nil_r | reflexivity] ].

Lemma print_quiet s : frames quiet (print s).
Proof. unfold print. quiet_prim. Qed.

Lemma isdir_quiet p : frames quiet (isdir p).
Proof. unfold isdir. quiet_prim. Qed.

Lemma isfile_quiet p : frames quiet (isfile p).
Proof. unfold isfile. quiet_prim. Qed.

Lemma exists_quiet p : frames quiet (exists_ p).
Proof. unfold exists_. quiet_prim. Qed.

Lemma abspath_quiet p : frames quiet (abspath p).
Proof. unfold abspath. quiet_prim. Qed.

Lemma mkdir_quiet p : frames quiet (mkdir p).
Proof. unfold mkdir. quiet_prim. Qed.

Lemma read_config_type_global_quiet : frames quiet read_config_type_global.
Proof. unfold read_config_type_global. quiet_prim. Qed.

Lemma first_item_quiet d k : frames quiet (first_item d k).
Proof. unfold first_item, ret, raise. quiet_prim. Qed.

Lemma get_template_quiet env name : frames quiet (get_template env name).
Proof. unfold get_template. quiet_prim. Qed.

Lemma render_quiet t : frames quiet (render t).
Proof.
  intros w. unfold render. destruct (jinja_render _ _ _) as [r g].
  apply (quiet_intro _ _ []); [reflexivity | reflexivity | | reflexivity].
  symmetry. apply app_nil_r.
Qed.

Ltac frames_step :=
  first
    [ apply frames_ret; apply _
    | apply frames_raise; apply _
    | apply frames_bind; [apply _ | | intros ?]
    | apply frames_when; [apply _ |]
    | apply frames_for_each; [apply _ | intros ?]
    | apply print_quiet | apply isdir_quiet | apply isfile_quiet
    | apply exists_quiet | apply abspath_quiet | apply mkdir_quiet
    | apply read_config_type_global_quiet | apply first_item_quiet
    | apply get_template_quiet | apply render_quiet ].

Lemma myconfig_newdir_quiet name t : frames quiet (myconfig_newdir name t).
Proof. unfold myconfig_newdir. repeat frames_step. Qed.

Lemma template_render_quiet filename template_path render_type :
  frames quiet (template_render filename template_path render_type).
Proof. unfold template_render. repeat frames_step. Qed.

Lemma bind_cases {A B} (m : M A) (k : A → M B) w :
  (∃ a w1, m w = (Ok a, w1) ∧ bind m k w = k a w1)
  ∨ (∃ e w1, m w = (Raise e, w1) ∧ bind m k w = (Raise e, w1)).
Proof. unfold bind. destruct (m w) as [[a|e] w1]; eauto 6. Qed.

Lemma write_file_cases p content w :
  (∃ e, write_file p content w = (Raise e, w))
  ∨ write_file p content w
    = (Ok tt, emit (EWrite (resolve w p) content)
                   (with_files (<[resolve w p := content]> (files w)) w)).
Proof.
  unfold write_file. destruct (is_dir w p); [eauto|].
  destruct (parent_error w _); eauto.
Qed.

Lemma copy_cases src dst w :
  (∃ e, copy src dst w = (Raise e, w))
  ∨ ∃ content,
      let d := if is_dir w dst then Path.join dst (Path.basename src) else dst in
      files w !! resolve w src = Some content
      ∧ (resolve w src ≠ resolve w d)
      ∧ copy src dst w
        = (Ok tt, emit (ECopy (resolve w src) (resolve w d))
                       (with_files (<[resolve w d := content]> (files w)) w)).
Proof.
  unfold copy.
  destruct (String.eqb _ _ && path_exists w src) eqn:Hsame; [eauto|].
  destruct (is_dir w src); [eauto|].
  destruct (files w !! resolve w src) as [content|] eqn:Hsrc; [|eauto].
  destruct (is_dir w (if is_dir w dst then _ else _)) eqn:Hd; [eauto|].
  destruct (parent_error w _); [eauto|].
  right. exists content. cbv zeta. split; [done|]. split; [|done].
  intros Heq. apply String.eqb_eq in Heq. rewrite Heq in Hsame.
  unfold path_exists, is_file in Hsame. rewrite Hsrc in Hsame.
  rewrite (bool_decide_eq_true_2 (is_Some (Some content))) in Hsame by eauto.
  by rewrite orb_true_r in Hsame.
Qed.

(** A copy of the variables file that is in the archive folder is not
    touched by a save into that folder; and nothing but a save changes a
    file. *)
Lemma template_save_keeps snippet_name myconfigdir config_type element render_type :
  frames (keeps (myconfigdir +:+ "/my_variables.py"))
         (template_save snippet_name myconfigdir config_type element render_type).
Proof.
  intros w. unfold template_save.
  erewrite bind_ok by apply print_typed.
  set (w0 := typed _ _ w).
  assert (Hq0 : quiet w w0).
  { apply (quiet_intro _ _ [EPrint ("..saving template for " +:+ snippet_name)]); done. }
  destruct (write_file_cases
              (myconfigdir +:+ "/" +:+ config_type +:+ "/" +:+ render_type +:+ "/" +:+ snippet_name)
              element w0) as [[e He] | Hwrite].
  { erewrite bind_raise by exact He. by apply quiet_keeps. }
  erewrite bind_ok by exact Hwrite. clear Hwrite.
  change (resolve w0 ?p) with (resolve w p).
  set (q := resolve w _). set (w1 := emit _ _).
  assert (Hlook : ∀ c, files w !! resolve w (myconfigdir +:+ "/my_variables.py") = Some c →
                       files w1 !! resolve w (myconfigdir +:+ "/my_variables.py") = Some c).
  { intros c Hc. subst w1 w0. world_fields. rewrite lookup_insert_ne; [done|].
    apply artifact_is_not_the_copy. }
  assert (Hlog : log w1 = log w ++ [EPrint ("..saving template for " +:+ snippet_name);
                                    EWrite q element]).
  { subst w1 w0. world_fields. by rewrite <- app_assoc. }
  assert (Hcwd : cwd w1 = cwd w) by done.
  assert (Hkeep : keeps (myconfigdir +:+ "/my_variables.py") w w1).
  { split; [done|]. split; [|done]. eexists. split; [exact Hlog|]. done. }
  erewrite bind_ok by reflexivity.
  destruct (is_file w1 (myconfigdir +:+ "/my_variables.py")) eqn:Hfile.
  { cbn [negb when]. erewrite bind_ok by reflexivity. exact Hkeep. }
  cbn [negb when].
  destruct (copy_cases "my_variables.py" (myconfigdir +:+ "/my_variables.py") w1)
    as [[e He] | (content & _ & _ & Hcopy)].
  { erewrite bind_raise by exact He. exact Hkeep. }
  erewrite bind_ok by exact Hcopy. clear Hcopy.
  split; [done|]. split.
  - eexists. split.
    + cbn [ret snd log emit with_log with_files]. rewrite Hlog, <- app_assoc. reflexivity.
    + done.
  - intros c Hc. apply Hlook in Hc.
    unfold is_file in Hfile. apply bool_decide_eq_false in Hfile.
    destruct Hfile. change (resolve w1 ?p) with (resolve w p). eauto.
Qed.

(** After a save that ended normally the archive folder holds a copy of the
    variables file; when the copy was made by this save, it has the content
    of [my_variables.py]. *)
Lemma template_save_copies snippet_name myconfigdir config_type element render_type w w' :
  template_save snippet_name myconfigdir config_type element render_type w = (Ok tt, w') →
  is_dir w (myconfigdir +:+ "/my_variables.py") = false →
  is_file w' (myconfigdir +:+ "/my_variables.py") = true
  ∧ (is_file w (myconfigdir +:+ "/my_variables.py") = false →
     files w' !! resolve w (myconfigdir +:+ "/my_variables.py")
     = files w' !! resolve w "my_variables.py").
Proof.
  unfold template_save.
  erewrite bind_ok by apply print_typed.
  set (w0 := typed _ _ w).
  destruct (write_file_cases
              (myconfigdir +:+ "/" +:+ config_type +:+ "/" +:+ render_type +:+ "/" +:+ snippet_name)
              element w0) as [[e He] | Hwrite].
  { erewrite bind_raise by exact He. done. }
  erewrite bind_ok by exact Hwrite. clear Hwrite.
  change (resolve w0 ?p) with (resolve w p).
  set (q := resolve w _). set (w1 := emit _ _).
  assert (Hsame : files w1 !! resolve w (myconfigdir +:+ "/my_variables.py")
                  = files w !! resolve w (myconfigdir +:+ "/my_variables.py")).
  { subst w1 w0. world_fields. rewrite lookup_insert_ne; [done|].
    apply artifact_is_not_the_copy. }
  erewrite bind_ok by reflexivity.
  destruct (is_file w1 (myconfigdir +:+ "/my_variables.py")) eqn:Hfile; cbn [negb when].
  - erewrite bind_ok by reflexivity. intros [= <-] _. split; [done|]. intros Habs.
    unfold is_file in Hfile, Habs.
    change (resolve w1 ?p) with (resolve w p) in Hfile.
    rewrite Hsame in Hfile. congruence.
  - destruct (copy_cases "my_variables.py" (myconfigdir +:+ "/my_variables.py") w1)
      as [[e He] | (content & Hsrc & Hne & Hcopy)].
    { erewrite bind_raise by exact He. done. }
    erewrite bind_ok by exact Hcopy. clear Hcopy.
    intros [= <-] Hnodir.
    change (is_dir w1 ?p) with (is_dir w p) in *. rewrite Hnodir in *.
    change (resolve w1 ?p) with (resolve w p) in *.
    unfold is_file. world_fields. change (resolve _ ?p) with (resolve w p).
    rewrite lookup_insert_eq. split; [by apply bool_decide_eq_true_2|].
    intros _. rewrite lookup_insert_ne by done. symmetry. exact Hsrc.
Qed.

Lemma template_render_keeps copy_path filename template_path render_type :
  frames (keeps copy_path) (template_render filename template_path render_type).
Proof. eapply frames_weaken; [apply quiet_keeps|]. apply template_render_quiet. Qed.

Lemma snippet_body_keeps d template_path myconfig_path config_type xml_xpath :
  frames (keeps (myconfig_path +:+ "/my_variables.py"))
         (snippet_body d template_path myconfig_path config_type xml_xpath).
Proof.
  unfold snippet_body.
  apply frames_bind; [apply _| |intros _].
  { eapply frames_weaken; [apply quiet_keeps|]. apply print_quiet. }
  apply frames_bind; [apply _| |intros first].
  { eapply frames_weaken; [apply quiet_keeps|]. apply first_item_quiet. }
  apply frames_bind; [apply _| |intros present].
  { eapply frames_weaken; [apply quiet_keeps|]. apply exists_quiet. }
  destruct (negb present).
  - eapply frames_weaken; [apply quiet_keeps|]. repeat frames_step.
  - apply frames_bind; [apply _|apply template_render_keeps|intros ?].
    apply template_save_keeps.
Qed.

Lemma render_snippets_keeps d template_path myconfig_path config_type :
  frames (keeps (myconfig_path +:+ "/my_variables.py"))
         (render_snippets d template_path myconfig_path config_type).
Proof.
  unfold render_snippets. apply frames_for_each; [apply _|intros ?].
  apply snippet_body_keeps.
Qed.

(** What the steps of [replace_variables] before [myconfig_newdir] do. *)
Lemma import_quiet name : frames quiet (import_ name).
Proof. unfold import_. quiet_prim. Qed.

Lemma import_xmlvar name w r w' : import_ name w = (r, w') → xmlvar w' = xmlvar w.
Proof. unfold import_. repeat case_match; by intros [= <- <-]. Qed.

Lemma resolve_dict_quiet config_type (load_order : PyModule) :
  frames quiet
    (if String.eqb config_type "panos" then
       getattr load_order "panos_gold_template_dict"
     else if String.eqb config_type "panorama" then
       getattr load_order "panorama_gold_template_dict"
     else bind (print "Oops. Not a supported config type") (λ _, sys_exit None)).
Proof.
  unfold getattr, sys_exit. repeat case_match; repeat frames_step.
Qed.

Lemma resolve_dict_xmlvar config_type (load_order : PyModule) w r w' :
  (if String.eqb config_type "panos" then
     getattr load_order "panos_gold_template_dict"
   else if String.eqb config_type "panorama" then
     getattr load_order "panorama_gold_template_dict"
   else bind (print "Oops. Not a supported config type") (λ _, sys_exit None)) w = (r, w') →
  xmlvar w' = xmlvar w.
Proof.
  unfold getattr, sys_exit, bind, print, ret, raise.
  repeat case_match; by intros [= <- <-].
Qed.

Lemma replace_variables_keeps config_type archivetime w copy_path :
  (∀ v, xmlvar w !! "MYCONFIG_DIR" = Some v →
        copy_path = archive_dir w v archivetime +:+ "/my_variables.py") →
  keeps copy_path w (replace_variables config_type archivetime w).2.
Proof.
  intros Hpath. unfold replace_variables.
  erewrite bind_ok by reflexivity.
  erewrite bind_ok by reflexivity.
  set (w1 := with_sys_path _ w).
  match goal with |- context [bind ?m ?k ?w] =>
    destruct (bind_cases m k w) as [(lo & w2 & Hm & ->) | (e & w2 & Hm & ->)] end.
  2:{ apply quiet_keeps. eapply (frames_run quiet _ w1); [apply import_quiet|done]. }
  assert (Hq2 : quiet w w2).
  { eapply (frames_run quiet _ w1); [apply import_quiet|done]. }
  assert (Hx2 : xmlvar w2 = xmlvar w) by (by apply import_xmlvar in Hm).
  clear Hm.
  match goal with |- context [bind ?m ?k ?w] =>
    destruct (bind_cases m k w) as [(sd & w3 & Hm & ->) | (e & w3 & Hm & ->)] end.
  2:{ apply quiet_keeps. transitivity w2; [done|].
      eapply frames_run; [apply resolve_dict_quiet|done]. }
  assert (Hq3 : quiet w w3).
  { transitivity w2; [done|]. eapply frames_run; [apply resolve_dict_quiet|done]. }
  assert (Hx3 : xmlvar w3 = xmlvar w) by (apply resolve_dict_xmlvar in Hm; congruence).
  clear Hm.
  destruct (xmlvar w !! "MYCONFIG_DIR") as [v|] eqn:Hv.
  2:{ erewrite bind_raise; [by apply quiet_keeps|].
      unfold xmlvar_get. by rewrite Hx3, Hv. }
  rewrite (Hpath v eq_refl).
  erewrite bind_ok by (apply xmlvar_get_ok; rewrite Hx3; exact Hv).
  match goal with |- context [bind ?m ?k ?w] =>
    destruct (bind_cases m k w) as [(mp & w4 & Hm & ->) | (e & w4 & Hm & ->)] end.
  2:{ apply quiet_keeps. transitivity w3; [done|].
      eapply frames_run; [apply myconfig_newdir_quiet|done]. }
  assert (Hq4 : quiet w w4).
  { transitivity w3; [done|]. eapply frames_run; [apply myconfig_newdir_quiet|done]. }
  apply myconfig_newdir_ok in Hm as (c & -> & _).
  destruct Hq3 as (Hcwd & _). rewrite Hcwd. fold (archive_dir w v archivetime).
  transitivity w4; [by apply quiet_keeps|].
  apply frames_apply.
  apply frames_bind; [apply _|apply render_snippets_keeps|intros _].
  apply frames_bind; [apply _| |intros _].
  { eapply frames_weaken; [apply quiet_keeps|]. apply print_quiet. }
  apply frames_bind; [apply _|apply template_render_keeps|intros element].
  apply frames_bind; [apply _|apply template_save_keeps|intros _].
  eapply frames_weaken; [apply quiet_keeps|]. repeat frames_step.
Qed.

(** C10.  The copy of the variables file comes with a save, and only with
    one.  For a single save: a copy that is already in the archive folder
    keeps its content, whatever the save ends with; and when the save ends
    normally the copy is there, with the content of [my_variables.py] when
    this save made it.  For a whole run of [replace_variables]: as long as
    no artifact is saved, the files are those of the start (so the archive
    folder, which [myconfig_newdir] may have created, holds no copy); and a
    copy that is in the archive folder of the run is never overwritten. *)
Theorem provenance_copy_comes_with_a_save :
  (∀ snippet_name myconfigdir config_type element render_type w,
     let out := template_save snippet_name myconfigdir config_type element render_type w in
     let copy_path := myconfigdir +:+ "/my_variables.py" in
     (∀ c, files w !! resolve w copy_path = Some c →
           files out.2 !! resolve w copy_path = Some c)
     ∧ (out.1 = Ok tt → is_dir w copy_path = false →
        is_file out.2 copy_path = true
        ∧ (is_file w copy_path = false →
           files out.2 !! resolve w copy_path = files out.2 !! resolve w "my_variables.py")))
  ∧ (∀ config_type archivetime w,
       let out := replace_variables config_type archivetime w in
       (∃ evs, log out.2 = log w ++ evs ∧ (saves evs = [] → files out.2 = files w))
       ∧ (∀ v c,
            xmlvar w !! "MYCONFIG_DIR" = Some v →
            let copy_path := archive_dir w v archivetime +:+ "/my_variables.py" in
            files w !! resolve w copy_path = Some c →
            files out.2 !! resolve w copy_path = Some c)).
Proof.
  split.
  - intros snippet_name myconfigdir config_type element render_type w out copy_path.
    split.
    + apply (template_save_keeps snippet_name myconfigdir config_type element render_type w).
    + intros Hok Hnodir. subst out copy_path.
      destruct (template_save _ _ _ _ _ w) as [r w'] eqn:Hrun.
      simpl in Hok. subst r. by apply (template_save_copies _ _ _ _ _ _ _ Hrun).
  - intros config_type archivetime w out. split.
    + destruct (xmlvar w !! "MYCONFIG_DIR") as [v|] eqn:Hv.
      * apply (replace_variables_keeps config_type archivetime w
                 (archive_dir w v archivetime +:+ "/my_variables.py")).
        intros v' Hv'. congruence.
      * apply (replace_variables_keeps config_type archivetime w ""). intros v' Hv'.
        congruence.
    + intros v c Hv copy_path.
      apply (replace_variables_keeps config_type archivetime w copy_path).
      intros v' Hv'. subst copy_path. congruence.
Qed.

(** *** The order of the operations *)

Lemma ops_app evs1 evs2 : ops (evs1 ++ evs2) = ops evs1 ++ ops evs2.
Proof. apply omap_app. Qed.

Lemma did_refl w : did [] w w.
Proof. split; [done|]. exists []. by rewrite app_nil_r. Qed.

Lemma did_trans o1 o2 w1 w2 w3 : did o1 w1 w2 → did o2 w2 w3 → did (o1 ++ o2) w1 w3.
Proof.
  intros (Hc1 & evs1 & Hl1 & Ho1) (Hc2 & evs2 & Hl2 & Ho2).
  split; [congruence|]. exists (evs1 ++ evs2).
  rewrite Hl2, Hl1, app_assoc, ops_app, Ho1, Ho2. done.
Qed.

#[local] Instance did_nil_preorder : PreOrder (did []).
Proof.
  split.
  - intros w. apply did_refl.
  - intros w1 w2 w3 H1 H2. apply (did_trans [] [] _ _ _ H1 H2).
Qed.

















(** *** Tracking *)

















(** *** Rendering *)

(** What [template_render] returns, as a function of what it reads. *)
Lemma template_render_reads filename template_path render_type w :
  let env :=
    register_filter "sha512_hash" sha512_hash
      (register_filter "des_hash" des_hash
         (register_filter "md5_hash" md5_hash
            (new_environment (template_path +:+ "/" +:+ render_type)))) in
  let out := template_render filename template_path render_type w in
  match jinja_get_template env (loader_view w (template_path +:+ "/" +:+ render_type))
                           filename with
  | Ok t => out.1 = (jinja_render t (xmlvar w) (rng w)).1
            ∧ rng out.2 = (jinja_render t (xmlvar w) (rng w)).2
  | Raise e => out.1 = Raise e ∧ rng out.2 = rng w
  end.
Proof.
  intros env out. subst out. unfold template_render. cbv zeta. fold env.
  erewrite bind_ok by apply print_typed.
  unfold bind, get_template.
  change (loader_view (typed ?e ?c ?w) ?p) with (loader_view w p).
  change (loader env) with (template_path +:+ "/" +:+ render_type).
  destruct (jinja_get_template env _ filename) as [t|e]; [|done].
  unfold render, ret.
  change (xmlvar (emit ?e (typed ?e' ?c ?w))) with (xmlvar w).
  change (rng (emit ?e (typed ?e' ?c ?w))) with (rng w).
  by destruct (jinja_render t _ _) as [[el|e] g].
Qed.

(** ** Further properties *)

#[local] Instance calm_preorder : PreOrder calm.
Proof.
  split.
  - intros w. repeat split; [done|]. exists []. by rewrite app_nil_r.
  - intros w1 w2 w3 (A1 & A2 & A3 & A4 & A5 & A6 & A7 & A8 & A9 & e1 & L1 & N1)
                    (B1 & B2 & B3 & B4 & B5 & B6 & B7 & B8 & B9 & e2 & L2 & N2).
    repeat split; [congruence.. | set_solver |].
    exists (e1 ++ e2). rewrite L2, L1, app_assoc. split; [done|].
    by rewrite forallb_app, N1, N2.
Qed.

#[local] Instance steady_preorder : PreOrder steady.
Proof.
  split.
  - intros w. repeat split; [done..|]. exists []. by rewrite app_nil_r.
  - intros w1 w2 w3 (A1 & A2 & A3 & A4 & A5 & A6 & A7 & A8 & A9 & e1 & L1)
                    (B1 & B2 & B3 & B4 & B5 & B6 & B7 & B8 & B9 & e2 & L2).
    repeat split; [congruence.. | set_solver | by auto |].
    exists (e1 ++ e2). by rewrite L2, L1, app_assoc.
Qed.

Lemma calm_steady w w' : calm w w' → steady w w'.
Proof.
  intros (A1 & A2 & A3 & A4 & A5 & A6 & A7 & A8 & A9 & e1 & L1 & N1).
  repeat split; [done..| |by exists e1]. intros q. by rewrite A8.
Qed.

Lemma calm_intro w w' evs :
  cwd w' = cwd w → xmlvar w' = xmlvar w → console_in w' = console_in w →
  timestamp w' = timestamp w → config_type_global w' = config_type_global w →
  sys_path w' = sys_path w → module_files w' = module_files w →
  files w' = files w → dirs w ⊆ dirs w' →
  log w' = log w ++ evs → forallb is_notice evs = true →
  calm w w'.
Proof. intros. repeat split; [done..|]. by exists evs. Qed.

Ltac calm_prim :=
  intros ?w; repeat case_match;
  first [ reflexivity
        | eapply (calm_intro _ _ [_]); first [reflexivity | set_solver]
        | apply (calm_intro _ _ []);
            first [reflexivity | symmetry; apply app_nil_r | set_solver] ].

Lemma print_calm s : frames calm (print s).
Proof. unfold print. calm_prim. Qed.

Lemma isdir_calm p : frames calm (isdir p).
Proof. unfold isdir. calm_prim. Qed.

Lemma isfile_calm p : frames calm (isfile p).
Proof. unfold isfile. calm_prim. Qed.

Lemma exists_calm p : frames calm (exists_ p).
Proof. unfold exists_. calm_prim. Qed.

Lemma abspath_calm p : frames calm (abspath p).
Proof. unfold abspath. calm_prim. Qed.

Lemma mkdir_calm p : frames calm (mkdir p).
Proof. unfold mkdir. calm_prim. Qed.

Lemma read_config_type_global_calm : frames calm read_config_type_global.
Proof. unfold read_config_type_global. calm_prim. Qed.

Lemma xmlvar_get_calm key : frames calm (xmlvar_get key).
Proof. unfold xmlvar_get. calm_prim. Qed.

Lemma first_item_calm d k : frames calm (first_item d k).
Proof. unfold first_item, ret, raise. calm_prim. Qed.

Lemma import_calm name : frames calm (import_ name).
Proof. unfold import_. calm_prim. Qed.

Lemma getattr_calm m attr : frames calm (getattr m attr).
Proof. unfold getattr, ret, raise. calm_prim. Qed.

Lemma get_template_calm env name : frames calm (get_template env name).
Proof. unfold get_template. calm_prim. Qed.

Lemma render_calm t : frames calm (render t).
Proof.
  intros w. unfold render. destruct (jinja_render _ _ _) as [r g].
  apply (calm_intro _ _ []); first [reflexivity | symmetry; apply app_nil_r | set_solver].
Qed.

Ltac calm_step :=
  first
    [ apply frames_ret; apply _
    | apply frames_raise; apply _
    | apply frames_bind; [apply _ | | intros ?]
    | apply frames_when; [apply _ |]
    | apply print_calm | apply isdir_calm | apply isfile_calm
    | apply exists_calm | apply abspath_calm | apply mkdir_calm
    | apply read_config_type_global_calm | apply xmlvar_get_calm
    | apply first_item_calm | apply import_calm | apply getattr_calm
    | apply get_template_calm | apply render_calm ].

Lemma myconfig_newdir_calm name t : frames calm (myconfig_newdir name t).
Proof. unfold myconfig_newdir. repeat calm_step. Qed.

Lemma template_render_calm filename template_path render_type :
  frames calm (template_render filename template_path render_type).
Proof. unfold template_render. cbv zeta. repeat calm_step. Qed.

Lemma resolve_dict_calm config_type (load_order : PyModule) :
  frames calm
    (if String.eqb config_type "panos" then
       getattr load_order "panos_gold_template_dict"
     else if String.eqb config_type "panorama" then
       getattr load_order "panorama_gold_template_dict"
     else bind (print "Oops. Not a supported config type") (λ _, sys_exit None)).
Proof. unfold sys_exit. repeat case_match; repeat calm_step. Qed.

(** The run after [sys.path.append]: every step but the saves is calm, so a
    relation that calm steps and saves respect holds of the whole run.  The
    relation may depend on the archive folder of the run. *)
Lemma replace_variables_rest (R : string → World → World → Prop)
    `{!∀ a, PreOrder (R a)} config_type archivetime w a :
  (∀ a w w', calm w w' → R a w w') →
  (∀ a snippet_name config_type element render_type,
     frames (R a) (template_save snippet_name a config_type element render_type)) →
  (∀ v, xmlvar w !! "MYCONFIG_DIR" = Some v → a = archive_dir w v archivetime) →
  R a (before_import w config_type) (replace_variables config_type archivetime w).2.
Proof.
  intros Hcalm Hsave Ha. unfold replace_variables.
  erewrite bind_ok by reflexivity.
  erewrite bind_ok by reflexivity.
  fold (template_dir w config_type). fold (before_import w config_type).
  set (w1 := before_import w config_type).
  match goal with |- context [bind ?m ?k ?w] =>
    destruct (bind_cases m k w) as [(lo & w2 & Hm & ->) | (e & w2 & Hm & ->)] end.
  2:{ apply Hcalm. eapply (frames_run calm); [apply import_calm|exact Hm]. }
  assert (Hq2 : calm w1 w2) by (eapply (frames_run calm); [apply import_calm|exact Hm]).
  clear Hm.
  match goal with |- context [bind ?m ?k ?w] =>
    destruct (bind_cases m k w) as [(sd & w3 & Hm & ->) | (e & w3 & Hm & ->)] end.
  2:{ apply Hcalm. transitivity w2; [done|].
      eapply frames_run; [apply resolve_dict_calm|exact Hm]. }
  assert (Hq3 : calm w1 w3).
  { transitivity w2; [done|]. eapply frames_run; [apply resolve_dict_calm|exact Hm]. }
  clear Hm.
  assert (Hx3 : xmlvar w3 = xmlvar w) by (by destruct Hq3 as (_ & -> & _)).
  destruct (xmlvar w !! "MYCONFIG_DIR") as [v|] eqn:Hv.
  2:{ erewrite bind_raise; [by apply Hcalm|].
      unfold xmlvar_get. by rewrite Hx3, Hv. }
  rewrite (Ha v eq_refl).
  erewrite bind_ok by (apply xmlvar_get_ok; rewrite Hx3; exact Hv).
  match goal with |- context [bind ?m ?k ?w] =>
    destruct (bind_cases m k w) as [(mp & w4 & Hm & ->) | (e & w4 & Hm & ->)] end.
  2:{ apply Hcalm. transitivity w3; [done|].
      eapply frames_run; [apply myconfig_newdir_calm|exact Hm]. }
  assert (Hq4 : calm w1 w4).
  { transitivity w3; [done|]. eapply frames_run; [apply myconfig_newdir_calm|exact Hm]. }
  apply myconfig_newdir_ok in Hm as (c & -> & _).
  replace (cwd w3) with (cwd w) by (by destruct Hq3 as (-> & _)).
  fold (archive_dir w v archivetime). set (mp := archive_dir w v archivetime).
  transitivity w4; [by apply Hcalm|].
  apply (frames_apply (R mp)).
  assert (Hc : ∀ A (m : M A), frames calm m → frames (R mp) m).
  { intros A m. apply (frames_weaken calm (R mp)), Hcalm. }
  apply (frames_bind (R mp)); [|intros _].
  { unfold render_snippets. apply (frames_for_each (R mp)); [intros k].
    unfold snippet_body.
    apply (frames_bind (R mp)); [apply Hc, print_calm|intros _].
    apply (frames_bind (R mp)); [apply Hc, first_item_calm|intros first].
    apply (frames_bind (R mp)); [apply Hc, exists_calm|intros present].
    destruct (negb present).
    - apply Hc. repeat calm_step.
    - apply (frames_bind (R mp)); [apply Hc, template_render_calm|intros element].
      apply Hsave. }
  apply (frames_bind (R mp)); [apply Hc, print_calm|intros _].
  apply (frames_bind (R mp)); [apply Hc, template_render_calm|intros element].
  apply (frames_bind (R mp)); [apply Hsave|intros _].
  apply Hc. repeat calm_step.
Qed.

Lemma insert_keeps_files (m : gmap string string) q c q' :
  is_Some (m !! q') → is_Some (<[q := c]> m !! q').
Proof.
  intros Hq. destruct (decide (q = q')) as [->|Hne].
  - rewrite lookup_insert_eq. eauto.
  - by rewrite lookup_insert_ne.
Qed.

Lemma steady_intro w w' evs :
  cwd w' = cwd w → xmlvar w' = xmlvar w → console_in w' = console_in w →
  timestamp w' = timestamp w → config_type_global w' = config_type_global w →
  sys_path w' = sys_path w → module_files w' = module_files w →
  dirs w ⊆ dirs w' → (∀ q, is_Some (files w !! q) → is_Some (files w' !! q)) →
  log w' = log w ++ evs →
  steady w w'.
Proof. intros. repeat split; [done..|]. by exists evs. Qed.

Lemma write_file_steady p content : frames steady (write_file p content).
Proof.
  intros w. destruct (write_file_cases p content w) as [[e ->] | ->]; [reflexivity|].
  apply (steady_intro _ _ [EWrite (resolve w p) content]); try reflexivity.
  intros q. apply insert_keeps_files.
Qed.

Lemma copy_steady src dst : frames steady (copy src dst).
Proof.
  intros w.
  destruct (copy_cases src dst w) as [[e ->] | (content & _ & _ & ->)]; [reflexivity|].
  eapply (steady_intro _ _ [_]); try reflexivity.
  intros q. apply insert_keeps_files.
Qed.

Lemma template_save_steady snippet_name myconfigdir config_type element render_type :
  frames steady (template_save snippet_name myconfigdir config_type element render_type).
Proof.
  unfold template_save.
  apply frames_bind; [apply _| |intros _].
  { eapply frames_weaken; [apply calm_steady|apply print_calm]. }
  apply frames_bind; [apply _|apply write_file_steady|intros _].
  apply frames_bind; [apply _| |intros present].
  { eapply frames_weaken; [apply calm_steady|apply isfile_calm]. }
  apply frames_bind; [apply _| |intros _].
  { apply frames_when; [apply _|]. apply copy_steady. }
  apply frames_ret. apply _.
Qed.

Lemma replace_variables_steady config_type archivetime w :
  steady (before_import w config_type) (replace_variables config_type archivetime w).2.
Proof.
  destruct (xmlvar w !! "MYCONFIG_DIR") as [v|] eqn:Hv.
  - apply (replace_variables_rest (λ _, steady) config_type archivetime w
             (archive_dir w v archivetime)).
    + intros _ u u'. apply calm_steady.
    + intros a n c e r. apply template_save_steady.
    + intros v' Hv'. congruence.
  - apply (replace_variables_rest (λ _, steady) config_type archivetime w "").
    + intros _ u u'. apply calm_steady.
    + intros a n c e r. apply template_save_steady.
    + intros v' Hv'. congruence.
Qed.

(** X1.  [replace_variables] reads its inputs and leaves them alone: the
    variable set, the lines still to be typed, the clock, the working
    directory and the module-level [config_type] are after the call what
    they were before it, whatever the call ends with. *)
Theorem replace_variables_leaves_inputs config_type archivetime w :
  let out := replace_variables config_type archivetime w in
  xmlvar out.2 = xmlvar w
  ∧ console_in out.2 = console_in w
  ∧ timestamp out.2 = timestamp w
  ∧ cwd out.2 = cwd w
  ∧ config_type_global out.2 = config_type_global w.
Proof.
  destruct (replace_variables_steady config_type archivetime w)
    as (A1 & A2 & A3 & A4 & A5 & _).
  cbv zeta. by rewrite A1, A2, A3, A4, A5.
Qed.

(** X2.  Every call of [replace_variables] appends the template directory
    of its type to [sys.path], once, and changes the search path in no other
    way - also when the call fails, and also when the directory is on the
    path already. *)
Theorem replace_variables_extends_sys_path config_type archivetime w :
  sys_path (replace_variables config_type archivetime w).2
  = sys_path w ++ [template_dir w config_type].
Proof.
  destruct (replace_variables_steady config_type archivetime w)
    as (_ & _ & _ & _ & _ & A6 & _).
  by rewrite A6.
Qed.

(** X3.  [replace_variables] removes nothing: every directory and every
    file that was there before the call is there after it (a file may have
    been rewritten), and the console log of before is the beginning of the
    log of after. *)
Theorem replace_variables_removes_nothing config_type archivetime w :
  let out := replace_variables config_type archivetime w in
  dirs w ⊆ dirs out.2
  ∧ (∀ q, is_Some (files w !! q) → is_Some (files out.2 !! q))
  ∧ log w `prefix_of` log out.2.
Proof.
  destruct (replace_variables_steady config_type archivetime w)
    as (_ & _ & _ & _ & _ & _ & _ & A8 & A9 & evs & A10).
  cbv zeta. split; [exact A8|]. split; [exact A9|]. by exists evs.
Qed.

(** *** Errors of a run *)





(** X6.  [myconfig_newdir] takes the configuration type from the
    module-level name [config_type], not from an argument.  When that name
    is not bound (the functions called from another module, not from the
    loop of the script), no call of [replace_variables] ends normally. *)
Theorem unbound_config_type_never_succeeds config_type archivetime w :
  config_type_global w = None →
  (replace_variables config_type archivetime w).1 ≠ Ok tt.
Proof.
  intros Hglob Hok.
  destruct (replace_variables config_type archivetime w) as [r w'] eqn:Hrun.
  simpl in Hok. subst r. unfold replace_variables in Hrun.
  apply bind_inv_ok in Hrun as (tp & w0 & [= <- <-] & Hrun).
  apply bind_inv_ok in Hrun as ([] & w1 & [= <-] & Hrun).
  apply bind_inv_ok in Hrun as (lo & w2 & H2 & Hrun).
  apply bind_inv_ok in Hrun as (sd & w3 & H3 & Hrun).
  apply bind_inv_ok in Hrun as (v & w4 & H4 & Hrun).
  apply bind_inv_ok in Hrun as (mp & w5 & H5 & _).
  apply (frames_run calm _ _ _ _ (import_calm _)) in H2.
  apply (frames_run calm _ _ _ _ (resolve_dict_calm _ _)) in H3.
  apply (frames_run calm _ _ _ _ (xmlvar_get_calm _)) in H4.
  apply myconfig_newdir_ok in H5 as (c & _ & _ & Hc & _).
  destruct H2 as (_ & _ & _ & _ & E2 & _), H3 as (_ & _ & _ & _ & E3 & _),
           H4 as (_ & _ & _ & _ & E4 & _).
  simpl in E2. congruence.
Qed.

(** *** The directories of a run *)

Lemma string_app_assoc a b c : (a +:+ b) +:+ c = a +:+ b +:+ c.
Proof.
  induction a as [|x a IH]; [done|].
  change (String x ((a +:+ b) +:+ c) = String x (a +:+ b +:+ c)). by rewrite IH.
Qed.

Lemma string_app_nil_r a : a +:+ "" = a.
Proof.
  induction a as [|x a IH]; [done|].
  change (String x (a +:+ "") = String x a). by rewrite IH.
Qed.

Lemma normpath_nonempty s : Path.normpath s ≠ "".
Proof.
  unfold Path.normpath. destruct (String.eqb s ""); [done|].
  cbv zeta. destruct (String.eqb _ "") eqn:Hp; [done|].
  intros Heq. rewrite Heq in Hp. discriminate.
Qed.

Lemma resolve_app w x y : x ≠ "" → resolve w (x +:+ y) = resolve w x +:+ y.
Proof.
  intros Hx. unfold resolve, Path.join.
  destruct x as [|c x]; [done|].
  change (String c x +:+ y) with (String c (x +:+ y)).
  cbn [Path.startswith].
  destruct (Ascii.eqb "/" c); cbn [andb].
  - done.
  - destruct (_ || _); by rewrite ?string_app_assoc.
Qed.

Lemma resolve_app_ne w x y : x ≠ "" → y ≠ "" → resolve w (x +:+ y) ≠ resolve w x.
Proof.
  intros Hx Hy. rewrite resolve_app by done. intros Heq.
  rewrite <- (string_app_nil_r (resolve w x)) in Heq at 2.
  by apply String.app_inj in Heq.
Qed.

Lemma added_refl S w : added S w w.
Proof.
  split; [done|]. split; [done|]. split; [done|]. split; [done|].
  apply union_subseteq_l.
Qed.

Lemma added_trans S1 S2 w1 w2 w3 :
  added S1 w1 w2 → added S2 w2 w3 → added (S1 ∪ S2) w1 w3.
Proof.
  intros (A1 & A2 & A3 & A4 & A5) (B1 & B2 & B3 & B4 & B5).
  split; [congruence|]. split; [congruence|]. split; [congruence|]. split.
  - by transitivity (dirs w2).
  - intros x Hx. apply B5, elem_of_union in Hx as [Hx|Hx].
    + apply A5, elem_of_union in Hx as [Hx|Hx]; rewrite !elem_of_union; auto.
    + rewrite !elem_of_union; auto.
Qed.

Lemma added_mono S S' w w' : S ⊆ S' → added S w w' → added S' w w'.
Proof.
  intros Hs (A1 & A2 & A3 & A4 & A5).
  split; [done|]. split; [done|]. split; [done|]. split; [done|].
  intros x Hx. apply A5, elem_of_union in Hx as [Hx|Hx]; rewrite elem_of_union; auto.
Qed.

Lemma resolve_added S w w' p : added S w w' → resolve w' p = resolve w p.
Proof. intros (Hc & _). unfold resolve. by rewrite Hc. Qed.

Lemma mkdir_cases p w :
  (∃ e, mkdir p w = (Raise e, w))
  ∨ mkdir p w = (Ok tt, emit (EMkdir (resolve w p)) (with_dirs ({[resolve w p]} ∪ dirs w) w)).
Proof.
  unfold mkdir. destruct (path_exists w p); [eauto|].
  destruct (parent_error w _); eauto.
Qed.

Lemma mkdir_added p w : added {[resolve w p]} w (mkdir p w).2.
Proof.
  destruct (mkdir_cases p w) as [[e ->] | ->]; [apply added_refl|].
  split; [reflexivity|]. split; [reflexivity|]. split; [reflexivity|].
  cbn [snd dirs emit with_log with_dirs]. split.
  - apply union_subseteq_r.
  - intros x Hx. apply elem_of_union in Hx as [Hx|Hx]; rewrite elem_of_union; auto.
Qed.

Lemma mkdir_ok_added p w w' :
  mkdir p w = (Ok tt, w') → added {[resolve w p]} w w' ∧ resolve w p ∈ dirs w'.
Proof.
  intros Hrun. pose proof (mkdir_added p w) as Ha. rewrite Hrun in Ha.
  split; [done|]. apply mkdir_is_dir in Hrun. unfold is_dir in Hrun.
  apply bool_decide_eq_true in Hrun. by rewrite (resolve_added _ _ _ _ Ha) in Hrun.
Qed.

(** [if os.path.isdir(p) is False: os.mkdir(p); print(...)] *)
Lemma ensure_added p line w :
  let out := when (negb (is_dir w p)) (bind (mkdir p) (λ _, print line)) w in
  added {[resolve w p]} w out.2
  ∧ (out.1 = Ok tt → resolve w p ∈ dirs out.2).
Proof.
  cbv zeta. destruct (is_dir w p) eqn:Hd; cbn [negb when].
  - split; [apply added_refl|]. intros _. unfold is_dir in Hd.
    by apply bool_decide_eq_true in Hd.
  - destruct (mkdir p w) as [[[]|e] w1] eqn:Hmk.
    + erewrite bind_ok by exact Hmk. apply mkdir_ok_added in Hmk as [Ha Hin].
      split; [|done]. destruct Ha as (A1 & A2 & A3 & A4 & A5).
      split; [done|]. split; [done|]. split; [done|]. split; done.
    + erewrite bind_raise by exact Hmk. split; [|done].
      pose proof (mkdir_added p w) as Ha. by rewrite Hmk in Ha.
Qed.

(** The three directories of a configuration type. *)
Lemma mode_dirs_added a g w :
  let out :=
    bind (mkdir (a +:+ "/" +:+ g)) (λ _,
    bind (mkdir (a +:+ "/" +:+ g +:+ "/snippets")) (λ _,
    bind (mkdir (a +:+ "/" +:+ g +:+ "/full")) (λ _,
    print ("created new subdirectories for " +:+ g)))) w in
  added {[ resolve w (a +:+ "/" +:+ g); resolve w (a +:+ "/" +:+ g +:+ "/snippets");
           resolve w (a +:+ "/" +:+ g +:+ "/full") ]} w out.2
  ∧ (out.1 = Ok tt →
     resolve w (a +:+ "/" +:+ g) ∈ dirs out.2
     ∧ resolve w (a +:+ "/" +:+ g +:+ "/snippets") ∈ dirs out.2
     ∧ resolve w (a +:+ "/" +:+ g +:+ "/full") ∈ dirs out.2).
Proof.
  cbv zeta.
  set (S := ({[ resolve w (a +:+ "/" +:+ g); resolve w (a +:+ "/" +:+ g +:+ "/snippets");
                resolve w (a +:+ "/" +:+ g +:+ "/full") ]} : gset string)).
  assert (S1 : resolve w (a +:+ "/" +:+ g) ∈ S)
    by (subst S; rewrite !elem_of_union, !elem_of_singleton; auto).
  assert (S2 : resolve w (a +:+ "/" +:+ g +:+ "/snippets") ∈ S)
    by (subst S; rewrite !elem_of_union, !elem_of_singleton; auto).
  assert (S3 : resolve w (a +:+ "/" +:+ g +:+ "/full") ∈ S)
    by (subst S; rewrite !elem_of_union, !elem_of_singleton; auto).
  assert (Hsingle : ∀ q u u', q ∈ S → added {[q]} u u' → added S u u').
  { intros q u u' Hq. apply added_mono. intros x ->%elem_of_singleton. done. }
  assert (Hunion : ∀ u1 u2 u3, added S u1 u2 → added S u2 u3 → added S u1 u3).
  { intros u1 u2 u3 H1 H2. eapply added_mono; [|exact (added_trans _ _ _ _ _ H1 H2)].
    apply union_least; done. }
  destruct (mkdir (a +:+ "/" +:+ g) w) as [[[]|e] w1] eqn:H1.
  2:{ erewrite bind_raise by exact H1. split; [|done].
      pose proof (mkdir_added (a +:+ "/" +:+ g) w) as Ha. rewrite H1 in Ha.
      by apply (Hsingle _ _ _ S1). }
  erewrite bind_ok by exact H1. apply mkdir_ok_added in H1 as [A1 I1].
  destruct (mkdir (a +:+ "/" +:+ g +:+ "/snippets") w1) as [[[]|e] w2] eqn:H2.
  2:{ erewrite bind_raise by exact H2. split; [|done].
      pose proof (mkdir_added (a +:+ "/" +:+ g +:+ "/snippets") w1) as Ha.
      rewrite H2, (resolve_added _ _ _ _ A1) in Ha.
      apply (Hunion w w1 w2); [by apply (Hsingle _ _ _ S1)|by apply (Hsingle _ _ _ S2)]. }
  erewrite bind_ok by exact H2. apply mkdir_ok_added in H2 as [A2 I2].
  rewrite (resolve_added _ _ _ _ A1) in A2, I2.
  assert (A12 : added S w w2).
  { apply (Hunion w w1 w2); [by apply (Hsingle _ _ _ S1)|by apply (Hsingle _ _ _ S2)]. }
  destruct (mkdir (a +:+ "/" +:+ g +:+ "/full") w2) as [[[]|e] w3] eqn:H3.
  2:{ erewrite bind_raise by exact H3. split; [|done].
      pose proof (mkdir_added (a +:+ "/" +:+ g +:+ "/full") w2) as Ha.
      rewrite H3, (resolve_added _ _ _ _ A12) in Ha.
      apply (Hunion w w2 w3); [done|by apply (Hsingle _ _ _ S3)]. }
  erewrite bind_ok by exact H3. apply mkdir_ok_added in H3 as [A3 I3].
  rewrite (resolve_added _ _ _ _ A12) in A3, I3.
  assert (A123 : added S w w3).
  { apply (Hunion w w2 w3); [done|by apply (Hsingle _ _ _ S3)]. }
  cbn [print fst snd]. split.
  - destruct A123 as (B1 & B2 & B3 & B4 & B5).
    split; [done|]. split; [done|]. split; [done|]. split; done.
  - intros _. cbn [dirs emit with_log].
    destruct A2 as (_ & _ & _ & D2 & _), A3 as (_ & _ & _ & D3 & _).
    split; [apply D3, D2, I1|]. split; [apply D3, I2|exact I3].
Qed.

Lemma when_skip (body : M unit) w : when (negb true) body w = (Ok tt, w).
Proof. reflexivity. Qed.

(** [myconfig_newdir], step by step: the main and the archive folder, then
    the bound type, then its three directories when the directory of the
    type is not there. *)
Lemma myconfig_newdir_steps name t w :
  let out := myconfig_newdir name t w in
  let a := archive_dir w name t in
  let main := Path.abspath (cwd w) (Path.join ".." "my_configs") in
  ∃ w2,
    added {[ resolve w main; resolve w a ]} w w2
    ∧ ((∃ e, out = (Raise e, w2))
       ∨ ∃ g,
           config_type_global w = Some g
           ∧ resolve w main ∈ dirs w2 ∧ resolve w a ∈ dirs w2
           ∧ ((is_dir w2 (a +:+ "/" +:+ g) = true ∧ out = (Ok a, w2))
              ∨ (is_dir w2 (a +:+ "/" +:+ g) = false
                 ∧ added {[ resolve w (a +:+ "/" +:+ g);
                            resolve w (a +:+ "/" +:+ g +:+ "/snippets");
                            resolve w (a +:+ "/" +:+ g +:+ "/full") ]} w2 out.2
                 ∧ ((∃ e, out.1 = Raise e)
                    ∨ (out.1 = Ok a
                       ∧ resolve w (a +:+ "/" +:+ g) ∈ dirs out.2
                       ∧ resolve w (a +:+ "/" +:+ g +:+ "/snippets") ∈ dirs out.2
                       ∧ resolve w (a +:+ "/" +:+ g +:+ "/full") ∈ dirs out.2))))).
Proof.
  cbv zeta. unfold myconfig_newdir.
  erewrite bind_ok by reflexivity. erewrite bind_ok by reflexivity.
  fold (archive_dir w name t).
  set (main := Path.abspath (cwd w) (Path.join ".." "my_configs")).
  set (a := archive_dir w name t).
  set (S := ({[ resolve w main; resolve w a ]} : gset string)).
  assert (S1 : ({[ resolve w main ]} : gset string) ⊆ S) by apply union_subseteq_l.
  assert (S2 : ({[ resolve w a ]} : gset string) ⊆ S) by apply union_subseteq_r.
  destruct (ensure_added main "created new myconfig directory" w) as [A1 I1].
  destruct (when (negb (is_dir w main)) _ w) as [[[]|e] w1] eqn:H1; cbn [fst snd] in A1, I1.
  2:{ erewrite bind_raise by exact H1. exists w1.
      split; [exact (added_mono _ _ _ _ S1 A1)|eauto]. }
  erewrite bind_ok by exact H1. specialize (I1 eq_refl).
  erewrite bind_ok by reflexivity.
  destruct (ensure_added a (Path.nl +:+ "created new archive folder " +:+ py_str name
                            +:+ "-" +:+ t) w1) as [A2 I2].
  rewrite (resolve_added _ _ _ _ A1) in A2, I2.
  destruct (when (negb (is_dir w1 a)) _ w1) as [[[]|e] w2] eqn:H2; cbn [fst snd] in A2, I2.
  all: assert (A12 : added S w w2)
    by (eapply added_mono; [|exact (added_trans _ _ _ _ _ A1 A2)]; by apply union_least).
  2:{ erewrite bind_raise by exact H2. exists w2. split; [done|eauto]. }
  erewrite bind_ok by exact H2. specialize (I2 eq_refl).
  exists w2. split; [done|].
  assert (G : config_type_global w2 = config_type_global w).
  { by destruct A12 as (_ & -> & _). }
  destruct (config_type_global w) as [g|] eqn:Hg.
  2:{ left. erewrite bind_raise; [eauto|].
      unfold read_config_type_global. by rewrite G. }
  right. exists g. split; [done|].
  split; [by destruct A2 as (_ & _ & _ & D & _); apply D|]. split; [done|].
  erewrite bind_ok by (unfold read_config_type_global; rewrite G; reflexivity).
  erewrite bind_ok by reflexivity.
  destruct (is_dir w2 (a +:+ "/" +:+ g)) eqn:Hd.
  - left. split; [done|]. erewrite bind_ok by apply when_skip. reflexivity.
  - right. split; [done|]. cbn [negb when].
    destruct (mode_dirs_added a g w2) as [A3 I3].
    rewrite !(resolve_added _ _ _ _ A12) in A3, I3.
    match type of A3 with added _ _ (?m w2).2 =>
      destruct (m w2) as [[[]|e] w3] eqn:H3 end; cbn [fst snd] in A3, I3.
    + erewrite bind_ok by exact H3. cbn [ret fst snd]. split; [done|].
      right. split; [done|]. by apply I3.
    + erewrite bind_raise by exact H3. cbn [fst snd]. split; [done|]. eauto.
Qed.

Lemma archive_dir_nonempty w name t : archive_dir w name t ≠ "".
Proof.
  unfold archive_dir. pose proof (normpath_nonempty
    (if Path.isabs (Path.join ".." "my_configs") then Path.join ".." "my_configs"
     else Path.join (cwd w) (Path.join ".." "my_configs"))) as Hn.
  fold (Path.abspath (cwd w) (Path.join ".." "my_configs")) in Hn.
  destruct (Path.abspath _ _); done.
Qed.

(** The directory of a type is neither the main folder nor the archive
    folder. *)
Lemma mode_dir_is_new w name t g :
  resolve w (archive_dir w name t +:+ "/" +:+ g)
  ∉ ({[ resolve w (Path.abspath (cwd w) (Path.join ".." "my_configs"));
        resolve w (archive_dir w name t) ]} : gset string).
Proof.
  rewrite elem_of_union, !elem_of_singleton. intros [Heq|Heq].
  - unfold archive_dir in Heq. rewrite !string_app_assoc in Heq.
    revert Heq. apply resolve_app_ne; [|done].
    pose proof (normpath_nonempty
      (if Path.isabs (Path.join ".." "my_configs") then Path.join ".." "my_configs"
       else Path.join (cwd w) (Path.join ".." "my_configs"))) as Hn.
    exact Hn.
  - revert Heq. apply resolve_app_ne; [apply archive_dir_nonempty|done].
Qed.

(** X7.  When [myconfig_newdir] ends normally it returns
    [<main>/<name>-<time>] with [<main>] the absolute path of
    [../my_configs], the module-level [config_type] is bound, and the main
    folder, the archive folder and the directory of the type exist.  When
    the directory of the type was not there before the call, its [snippets]
    and [full] sub-directories exist as well. *)
Theorem myconfig_newdir_layout myconfigdir_name foldertime w p w' :
  myconfig_newdir myconfigdir_name foldertime w = (Ok p, w') →
  ∃ g,
    config_type_global w = Some g
    ∧ p = archive_dir w myconfigdir_name foldertime
    ∧ is_dir w' (Path.abspath (cwd w) (Path.join ".." "my_configs")) = true
    ∧ is_dir w' p = true
    ∧ is_dir w' (p +:+ "/" +:+ g) = true
    ∧ (is_dir w (p +:+ "/" +:+ g) = false →
       is_dir w' (p +:+ "/" +:+ g +:+ "/snippets") = true
       ∧ is_dir w' (p +:+ "/" +:+ g +:+ "/full") = true).
Proof.
  intros Hrun.
  destruct (myconfig_newdir_ok _ _ _ _ _ Hrun) as (g & -> & Hg & Hglob & D1 & D2 & D3).
  fold (archive_dir w myconfigdir_name foldertime) in *.
  set (a := archive_dir w myconfigdir_name foldertime) in *.
  exists g. split; [done|]. split; [done|]. split; [done|]. split; [done|].
  split; [done|]. intros Hnew.
  destruct (myconfig_newdir_steps myconfigdir_name foldertime w)
    as (w2 & A12 & [[e He] | (g' & Hg' & _ & _ & Hcase)]).
  { rewrite Hrun in He. discriminate. }
  assert (g' = g) as -> by congruence.
  fold a in Hcase. rewrite Hrun in Hcase. cbn [fst snd] in Hcase.
  destruct Hcase as [[Hthere _] | (_ & A3 & [[e He] | (_ & _ & I2 & I3)])].
  - exfalso. unfold is_dir in Hthere, Hnew.
    apply bool_decide_eq_true in Hthere. apply bool_decide_eq_false in Hnew.
    rewrite (resolve_added _ _ _ _ A12) in Hthere.
    destruct A12 as (_ & _ & _ & _ & Hup).
    apply Hup, elem_of_union in Hthere as [Hin|Hin]; [done|].
    by apply (mode_dir_is_new w myconfigdir_name foldertime g).
  - discriminate.
  - assert (Hc : cwd w' = cwd w) by (by destruct Hg as (-> & _)).
    unfold is_dir, resolve in *. rewrite Hc.
    split; by apply bool_decide_eq_true.
Qed.

(** X8.  Whatever [myconfig_newdir] ends with, it touches directories only:
    the files are unchanged, no directory is removed, and a directory that
    is new is the main folder, the archive folder, or one of the three
    directories of the bound type.  When the directory of the type exists
    already, nothing is created below it - also when its [snippets] or
    [full] sub-directory is missing. *)
Theorem myconfig_newdir_creates_only_its_layout myconfigdir_name foldertime w :
  let out := myconfig_newdir myconfigdir_name foldertime w in
  let a := archive_dir w myconfigdir_name foldertime in
  files out.2 = files w
  ∧ dirs w ⊆ dirs out.2
  ∧ dirs out.2 ⊆ dirs w ∪ layout w myconfigdir_name foldertime
  ∧ (∀ g, config_type_global w = Some g →
          is_dir w (a +:+ "/" +:+ g) = true →
          dirs out.2
          ⊆ dirs w ∪ {[ resolve w (Path.abspath (cwd w) (Path.join ".." "my_configs"));
                        resolve w a ]}).
Proof.
  cbv zeta. unfold layout.
  set (a := archive_dir w myconfigdir_name foldertime).
  destruct (myconfig_newdir_steps myconfigdir_name foldertime w)
    as (w2 & A12 & Hcase). fold a in A12, Hcase.
  pose proof A12 as (C12 & _ & F12 & D12 & U12).
  destruct Hcase as [[e ->] | (g & Hg & _ & _ & Hcase)]; cbn [fst snd].
  { split; [done|]. split; [done|]. split.
    - intros x Hx. apply U12, elem_of_union in Hx as [Hx|Hx]; apply elem_of_union;
        [by left | right; apply elem_of_union; by left].
    - intros g' _ _. exact U12. }
  rewrite Hg.
  destruct Hcase as [[Hthere ->] | (Hnew & A3 & _)]; cbn [fst snd].
  { split; [done|]. split; [done|]. split.
    - intros x Hx. apply U12, elem_of_union in Hx as [Hx|Hx]; apply elem_of_union;
        [by left | right; apply elem_of_union; by left].
    - intros g' _ _. exact U12. }
  pose proof (added_trans _ _ _ _ _ A12 A3) as (_ & _ & F & D & U).
  split; [done|]. split; [done|]. split.
  - intros x Hx. apply U, elem_of_union in Hx as [Hx|Hx]; apply elem_of_union;
      [by left | by right].
  - intros g' Hg' Hthere. assert (g' = g) as -> by congruence. exfalso.
    unfold is_dir in Hthere, Hnew.
    apply bool_decide_eq_true in Hthere. apply bool_decide_eq_false in Hnew.
    apply Hnew. rewrite (resolve_added _ _ _ _ A12). by apply D12.
Qed.

(** *** What a save writes *)

Lemma count_slash_app a b : count_slash (a +:+ b) = (count_slash a + count_slash b)%nat.
Proof.
  induction a as [|c a IH]; [done|].
  change (String c a +:+ b) with (String c (a +:+ b)).
  cbn [count_slash]. rewrite IH. lia.
Qed.

Lemma endswith_slash_app a b : b ≠ "" → Path.endswith_slash (a +:+ b) = Path.endswith_slash b.
Proof.
  intros Hb. induction a as [|c a IH]; [done|].
  change (String c a +:+ b) with (String c (a +:+ b)).
  cbn [Path.endswith_slash]. destruct (a +:+ b) eqn:Hab; [|done].
  destruct a, b; done.
Qed.

(** Where [shutil.copy] puts the variables file when the copy path is a
    directory. *)
Lemma copy_into_directory myconfigdir :
  Path.join (myconfigdir +:+ "/my_variables.py") (Path.basename "my_variables.py")
  = myconfigdir +:+ "/" +:+ "my_variables.py/my_variables.py".
Proof.
  change (Path.basename "my_variables.py") with "my_variables.py".
  unfold Path.join. change (Path.startswith "/" "my_variables.py") with false. cbv iota.
  rewrite endswith_slash_app by done.
  change (Path.endswith_slash "/my_variables.py") with false.
  destruct (String.eqb _ "") eqn:Heq.
  - apply String.eqb_eq in Heq. by destruct myconfigdir.
  - cbn [orb]. rewrite string_app_assoc. reflexivity.
Qed.

(** Both places the copy can go to are below the archive folder, and
    neither is the artifact of the save. *)
Lemma copy_target w myconfigdir (b : bool) :
  let d := if b then Path.join (myconfigdir +:+ "/my_variables.py")
                                (Path.basename "my_variables.py")
           else myconfigdir +:+ "/my_variables.py" in
  (∃ x, resolve w d = resolve w (myconfigdir +:+ "/" +:+ x))
  ∧ ∀ config_type render_type filename,
      resolve w (myconfigdir +:+ "/" +:+ config_type +:+ "/" +:+ render_type
                 +:+ "/" +:+ filename) ≠ resolve w d.
Proof.
  cbv zeta. destruct b.
  - rewrite copy_into_directory. split; [eauto|].
    intros config_type render_type filename Heq.
    apply resolve_below_inj, (f_equal count_slash) in Heq.
    rewrite !count_slash_app in Heq. cbn in Heq. lia.
  - split; [by exists "my_variables.py"|].
    intros config_type render_type filename. apply artifact_is_not_the_copy.
Qed.

(** A save that ends normally has put the text into the artifact, whatever
    was there before. *)
Lemma template_save_content snippet_name myconfigdir config_type element render_type w w' :
  template_save snippet_name myconfigdir config_type element render_type w = (Ok tt, w') →
  files w' !! resolve w (myconfigdir +:+ "/" +:+ config_type +:+ "/" +:+ render_type
                         +:+ "/" +:+ snippet_name)
  = Some element.
Proof.
  unfold template_save.
  erewrite bind_ok by apply print_typed.
  set (w0 := typed _ _ w).
  destruct (write_file_cases
              (myconfigdir +:+ "/" +:+ config_type +:+ "/" +:+ render_type +:+ "/" +:+ snippet_name)
              element w0) as [[e He] | Hwrite].
  { erewrite bind_raise by exact He. done. }
  erewrite bind_ok by exact Hwrite. clear Hwrite.
  change (resolve w0 ?p) with (resolve w p).
  set (q := resolve w _). set (w1 := emit _ _).
  assert (Hq : files w1 !! q = Some element).
  { subst w1 w0. world_fields. apply lookup_insert_eq. }
  erewrite bind_ok by reflexivity.
  destruct (is_file w1 (myconfigdir +:+ "/my_variables.py")) eqn:Hfile; cbn [negb when].
  - erewrite bind_ok by reflexivity. by intros [= <-].
  - destruct (copy_cases "my_variables.py" (myconfigdir +:+ "/my_variables.py") w1)
      as [[e He] | (content & _ & _ & Hcopy)].
    { erewrite bind_raise by exact He. done. }
    erewrite bind_ok by exact Hcopy. clear Hcopy. intros [= <-].
    world_fields. change (resolve _ ?p) with (resolve w p).
    rewrite lookup_insert_ne; [exact Hq|].
    intros Heq. symmetry in Heq. revert Heq.
    apply (proj2 (copy_target w myconfigdir (is_dir w1 (myconfigdir +:+ "/my_variables.py")))).
Qed.

(** X9.  When [template_save] ends normally, the file
    [<archive>/<type>/<category>/<name>] holds exactly the text it was
    given - it replaces what the file held before, and the copy of the
    variables file that the same call may make never lands on it. *)
Theorem saved_artifact_holds_the_text snippet_name myconfigdir config_type element
    render_type w w' :
  template_save snippet_name myconfigdir config_type element render_type w = (Ok tt, w') →
  files w' !! resolve w (myconfigdir +:+ "/" +:+ config_type +:+ "/" +:+ render_type
                         +:+ "/" +:+ snippet_name)
  = Some element
  ∧ is_file w' (myconfigdir +:+ "/" +:+ config_type +:+ "/" +:+ render_type
                +:+ "/" +:+ snippet_name) = true.
Proof.
  intros Hrun. pose proof (template_save_content _ _ _ _ _ _ _ Hrun) as Hq.
  split; [done|]. unfold is_file.
  assert (Hc : cwd w' = cwd w).
  { by destruct (frames_run _ _ _ _ _ (template_save_steady _ _ _ _ _) Hrun) as (-> & _). }
  unfold resolve in *. rewrite Hc, Hq. by apply bool_decide_eq_true_2.
Qed.

(** *** Files change below the archive folder only *)

#[local] Instance outside_preorder a : PreOrder (outside a).
Proof.
  split.
  - intros w. by split.
  - intros w1 w2 w3 [Hc12 H12] [Hc23 H23]. split; [congruence|].
    intros q Hq. rewrite H23, H12; [done|exact Hq|].
    intros x. unfold resolve in *. rewrite Hc12. apply Hq.
Qed.

Lemma calm_outside a w w' : calm w w' → outside a w w'.
Proof. intros (Hc & _ & _ & _ & _ & _ & _ & Hf & _). split; [done|]. intros q _. by rewrite Hf. Qed.

Lemma template_save_outside snippet_name myconfigdir config_type element render_type :
  frames (outside myconfigdir)
         (template_save snippet_name myconfigdir config_type element render_type).
Proof.
  intros w. unfold template_save.
  erewrite bind_ok by apply print_typed.
  set (w0 := typed _ _ w).
  assert (H0 : outside myconfigdir w w0) by (by split).
  destruct (write_file_cases
              (myconfigdir +:+ "/" +:+ config_type +:+ "/" +:+ render_type +:+ "/" +:+ snippet_name)
              element w0) as [[e He] | Hwrite].
  { erewrite bind_raise by exact He. done. }
  erewrite bind_ok by exact Hwrite. clear Hwrite.
  change (resolve w0 ?p) with (resolve w p).
  set (w1 := emit _ _).
  assert (H1 : outside myconfigdir w w1).
  { split; [done|]. intros q Hq. subst w1 w0. world_fields.
    apply lookup_insert_ne. intros Heq. apply (Hq (config_type +:+ "/" +:+ render_type +:+ "/" +:+ snippet_name)).
    rewrite <- Heq. reflexivity. }
  erewrite bind_ok by reflexivity.
  destruct (is_file w1 (myconfigdir +:+ "/my_variables.py")) eqn:Hfile; cbn [negb when].
  - erewrite bind_ok by reflexivity. exact H1.
  - destruct (copy_cases "my_variables.py" (myconfigdir +:+ "/my_variables.py") w1)
      as [[e He] | (content & _ & _ & Hcopy)].
    { erewrite bind_raise by exact He. exact H1. }
    erewrite bind_ok by exact Hcopy. clear Hcopy.
    split; [done|]. intros q Hq. unfold ret. cbn [snd]. world_fields.
    change (resolve _ ?p) with (resolve w p).
    rewrite lookup_insert_ne; [by apply H1|].
    destruct (proj1 (copy_target w myconfigdir (is_dir w1 (myconfigdir +:+ "/my_variables.py"))))
      as [x Hx].
    intros Heq. apply (Hq x). rewrite <- Heq. exact Hx.
Qed.


(** *** One iteration of the loop, end to end *)

(** X11.  A load-order entry whose list of snippet names is empty stops the
    loop: after the line that names the xpath, [d[xml_xpath][0]] raises
    [IndexError]; nothing is rendered or saved for it, and the entries
    after it are not processed at all. *)
Theorem empty_entry_stops_the_loop d template_path myconfig_path config_type
    xml_xpath later w :
  dict_get d xml_xpath = Some [] →
  let body := snippet_body d template_path myconfig_path config_type in
  let w1 := with_log (log w ++ [EPrint (Path.nl +:+ "working with " +:+ xml_xpath)]) w in
  body xml_xpath w = (Raise IndexError, w1)
  ∧ for_each (xml_xpath :: later) body w = (Raise IndexError, w1).
Proof.
  intros Hget body w1.
  assert (Hbody : body xml_xpath w = (Raise IndexError, w1)).
  { subst body w1. unfold snippet_body.
    erewrite bind_ok by apply print_typed.
    unfold bind, first_item. rewrite Hget. cbn [raise]. f_equal; same_world. }
  split; [done|]. cbn [for_each]. by rewrite (bind_raise _ _ _ _ _ Hbody).
Qed.

(** X12.  An iteration that finds its snippet and ends normally has saved
    the rendering of that snippet: the file
    [<archive>/<type>/snippets/<first>.xml] holds the text jinja2 produces
    from the template [<first>.xml] of [<templates>/snippets], the variable
    set and the random source, as they were when the iteration began. *)
Theorem present_snippet_is_rendered_and_saved d template_path myconfig_path config_type
    xml_xpath first others w w' :
  dict_get d xml_xpath = Some (first :: others) →
  path_exists w (Path.join (Path.join template_path "snippets") (first +:+ ".xml")) = true →
  snippet_body d template_path myconfig_path config_type xml_xpath w = (Ok tt, w') →
  let env :=
    register_filter "sha512_hash" sha512_hash
      (register_filter "des_hash" des_hash
         (register_filter "md5_hash" md5_hash
            (new_environment (template_path +:+ "/" +:+ "snippets")))) in
  ∃ t element,
    jinja_get_template env (loader_view w (template_path +:+ "/" +:+ "snippets"))
                       (first +:+ ".xml") = Ok t
    ∧ (jinja_render t (xmlvar w) (rng w)).1 = Ok element
    ∧ files w' !! resolve w (myconfig_path +:+ "/" +:+ config_type +:+ "/" +:+ "snippets"
                             +:+ "/" +:+ first +:+ ".xml")
      = Some element.
Proof.
  intros Hget Hthere Hrun env. revert Hrun. unfold snippet_body.
  erewrite bind_ok by apply print_typed.
  set (w0 := typed _ _ w).
  erewrite bind_ok by (unfold first_item; rewrite Hget; reflexivity).
  erewrite bind_ok by reflexivity.
  change (path_exists w0 ?p) with (path_exists w p). rewrite Hthere. cbn [negb].
  pose proof (template_render_reads (first +:+ ".xml") template_path "snippets" w0) as Hreads.
  pose proof (template_render_calm (first +:+ ".xml") template_path "snippets" w0) as Hcalm.
  cbv zeta in Hreads. fold env in Hreads.
  change (loader_view w0 ?p) with (loader_view w p) in Hreads.
  change (xmlvar w0) with (xmlvar w) in Hreads.
  change (rng w0) with (rng w) in Hreads.
  destruct (bind_cases (template_render (first +:+ ".xml") template_path "snippets")
              (λ element, template_save (first +:+ ".xml") myconfig_path config_type element
                            "snippets") w0)
    as [(element & w2 & Hrender & ->) | (e & w2 & _ & ->)]; [|done].
  rewrite Hrender in Hreads, Hcalm. cbn [fst snd] in Hreads, Hcalm.
  intros Hsave. apply template_save_content in Hsave.
  assert (Hc : cwd w2 = cwd w) by (by destruct Hcalm as [-> _]).
  destruct (jinja_get_template env _ _) as [t|e]; [|by destruct Hreads].
  exists t, element. split; [done|]. split; [by destruct Hreads|].
  unfold resolve in *. rewrite Hc in Hsave. exact Hsave.
Qed.

(** *** The dialogue with the operator *)

#[local] Instance prompting_preorder : PreOrder prompting.
Proof.
  split.
  - intros w. split_and!; try done. exists []. by rewrite app_nil_r.
  - intros w1 w2 w3 (A1 & A2 & A3 & A4 & A6 & e1 & L1 & N1)
                    (B1 & B2 & B3 & B4 & B6 & e2 & L2 & N2).
    split_and!; [congruence..| |].
    + intros k Hu Hp. by rewrite B6, A6.
    + exists (e1 ++ e2). rewrite L2, L1, app_assoc. split; [done|].
      by rewrite forallb_app, N1, N2.
Qed.

Lemma print_prompting s : frames prompting (print s).
Proof. intros w. split_and!; try done. by exists [EPrint s]. Qed.

Lemma read_line_prompting s : frames prompting (read_line s).
Proof.
  intros w. unfold read_line. destruct (console_in w); (split_and!; try done);
    by exists [EPrompt s].
Qed.

Lemma now_stamp_prompting : frames prompting now_stamp.
Proof. intros w. reflexivity. Qed.

Lemma xmlvar_get_prompting k : frames prompting (xmlvar_get k).
Proof. intros w. unfold xmlvar_get. destruct (xmlvar w !! k); reflexivity. Qed.

Lemma xmlvar_set_prompting k v :
  k = "ADMINISTRATOR_USERNAME" ∨ k = "ADMINISTRATOR_PASSWORD" →
  frames prompting (xmlvar_set k v).
Proof.
  intros Hk w. unfold xmlvar_set. cbn [snd]. split_and!; try done; world_fields.
  - intros k' Hu Hp. apply lookup_insert_ne. destruct Hk; congruence.
  - exists []. by rewrite app_nil_r.
Qed.

Lemma password_loop_prompting fuel : frames prompting (password_loop fuel).
Proof.
  induction fuel as [|fuel IH].
  - apply frames_raise. apply _.
  - cbn [password_loop].
    apply frames_bind; [apply _ | apply read_line_prompting | intros password1].
    apply frames_bind; [apply _ | apply read_line_prompting | intros password2].
    destruct (String.eqb password1 password2).
    + apply xmlvar_set_prompting. by right.
    + apply frames_bind; [apply _ | apply print_prompting | intros _]. exact IH.
Qed.

Lemma collect_password_prompting : frames prompting collect_password.
Proof. intros w. apply password_loop_prompting. Qed.

Lemma main_prologue_prompting : frames prompting main_prologue.
Proof.
  unfold main_prologue.
  repeat (apply frames_bind; [apply _ | apply print_prompting | intros _]).
  apply frames_bind; [apply _ | apply now_stamp_prompting | intros archive_time].
  apply frames_bind; [apply _ | apply print_prompting | intros _].
  apply frames_bind; [apply _ | apply read_line_prompting | intros username].
  apply frames_bind; [apply _ | apply xmlvar_set_prompting; by left | intros _].
  apply frames_bind; [apply _ | apply xmlvar_get_prompting | intros shown].
  apply frames_bind; [apply _ | apply print_prompting | intros _].
  apply frames_bind; [apply _ | apply collect_password_prompting | intros _].
  apply frames_ret. apply _.
Qed.

(** The loop of the script ends: with the password stored, or at the end
    of the input. *)
Lemma password_loop_ends fuel : ∀ w,
  (length (console_in w) < fuel)%nat →
  (password_loop fuel w).1 = Ok tt ∨ (password_loop fuel w).1 = Raise EOFError.
Proof.
  induction fuel as [|fuel IH]; intros w Hlen; [lia|].
  change (password_loop (S fuel)) with
    (bind (getpass "Enter the superuser administrator account password: ") (λ password1,
     bind (getpass "Enter password again to verify: ") (λ password2,
       if String.eqb password1 password2 then
         xmlvar_set "ADMINISTRATOR_PASSWORD" (PyStr password1)
       else
         bind (print (Path.nl +:+ "Passwords do not match. Please try again." +:+ Path.nl))
              (λ _, password_loop fuel)))).
  destruct (console_in w) as [|a [|b rest]] eqn:Hin.
  - erewrite bind_raise by (by apply read_line_eof). by right.
  - erewrite bind_ok by (by apply read_line_next).
    erewrite bind_raise by (by apply read_line_eof). by right.
  - erewrite bind_ok by (by apply read_line_next).
    erewrite bind_ok by (by apply read_line_next).
    destruct (String.eqb a b); [by left|].
    erewrite bind_ok by apply print_typed.
    apply IH. world_fields. cbn [length] in Hlen. lia.
Qed.

Lemma main_prologue_ends w :
  (main_prologue w).1 = Ok (timestamp w) ∨ (main_prologue w).1 = Raise EOFError.
Proof.
  unfold main_prologue.
  do 5 (erewrite bind_ok by apply print_typed).
  erewrite bind_ok by reflexivity. world_fields.
  erewrite bind_ok by apply print_typed.
  match goal with |- context [bind (input ?p) ?k ?u] => set (w0 := u) end.
  destruct (console_in w) as [|username rest] eqn:Hin.
  - erewrite bind_raise by (by apply read_line_eof). by right.
  - erewrite bind_ok by (by apply (read_line_next _ username rest)).
    erewrite bind_ok by reflexivity.
    erewrite bind_ok by (apply xmlvar_get_ok; world_fields; apply lookup_insert_eq).
    erewrite bind_ok by apply print_typed.
    match goal with |- context [bind collect_password ?k ?u] =>
      pose proof (password_loop_ends (password_rounds u) u (Nat.lt_succ_diag_r _)) as Hends;
      destruct (bind_cases collect_password k u) as [(x & w2 & Hm & ->) | (e & w2 & Hm & ->)]
    end.
    + by left.
    + right. unfold collect_password in Hm. rewrite Hm in Hends. cbn [fst] in *.
      destruct Hends as [Hends|Hends]; [discriminate Hends|]. by injection Hends as ->.
Qed.

(** X13.  Whatever the operator types, the dialogue at the start of the
    script either returns the time stamp of the run or ends with [EOFError]
    at the end of the input - the password loop cannot end in another way -
    and it is a dialogue only: no directory or file is created or changed,
    and of the variable set only the two credentials may differ
    afterwards. *)
Theorem dialogue_only_sets_credentials w :
  let out := main_prologue w in
  (out.1 = Ok (timestamp w) ∨ out.1 = Raise EOFError)
  ∧ dirs out.2 = dirs w ∧ files out.2 = files w ∧ cwd out.2 = cwd w
  ∧ ∀ k, k ≠ "ADMINISTRATOR_USERNAME" → k ≠ "ADMINISTRATOR_PASSWORD" →
         xmlvar out.2 !! k = xmlvar w !! k.
Proof.
  cbv zeta. split; [apply main_prologue_ends|].
  destruct (main_prologue_prompting w) as (Hc & Hd & Hf & _ & Hx & _). done.
Qed.

(** *** A whole run *)

(** One configuration type of a run whose archive folder is [a], for a
    relation that the dialogue, the calm steps and the saves respect. *)
Lemma mode_frame (R : string → World → World → Prop) `{!∀ a, PreOrder (R a)}
    archive_time a config_type w :
  (∀ a w w', prompting w w' → R a w w') →
  (∀ a w w', calm w w' → R a w w') →
  (∀ a snippet_name config_type element render_type,
     frames (R a) (template_save snippet_name a config_type element render_type)) →
  (∀ v, xmlvar w !! "MYCONFIG_DIR" = Some v → a = archive_dir w v archive_time) →
  let out := bind (bind_config_type_global config_type)
                  (λ _, replace_variables config_type archive_time) w in
  xmlvar out.2 = xmlvar w ∧ cwd out.2 = cwd w ∧ R a w out.2.
Proof.
  intros Hprompt Hcalm Hsave Ha. cbv zeta. erewrite bind_ok by reflexivity.
  set (w1 := with_config_type_global _ w).
  destruct (replace_variables_steady config_type archive_time w1) as (Hc & Hx & _).
  pose proof (replace_variables_rest R config_type archive_time w1 a Hcalm Hsave Ha) as Ho.
  split; [exact Hx|]. split; [exact Hc|].
  transitivity (before_import w1 config_type); [|exact Ho].
  apply Hprompt. split_and!; try done. exists []. by rewrite app_nil_r.
Qed.

Lemma modes_frame (R : string → World → World → Prop) `{!∀ a, PreOrder (R a)}
    archive_time a config_types :
  (∀ a w w', prompting w w' → R a w w') →
  (∀ a w w', calm w w' → R a w w') →
  (∀ a snippet_name config_type element render_type,
     frames (R a) (template_save snippet_name a config_type element render_type)) →
  ∀ w,
  (∀ v, xmlvar w !! "MYCONFIG_DIR" = Some v → a = archive_dir w v archive_time) →
  let out := for_each config_types
               (λ config_type, bind (bind_config_type_global config_type)
                                    (λ _, replace_variables config_type archive_time)) w in
  xmlvar out.2 = xmlvar w ∧ cwd out.2 = cwd w ∧ R a w out.2.
Proof.
  intros Hprompt Hcalm Hsave.
  induction config_types as [|config_type later IH]; intros w Ha; cbv zeta.
  - done.
  - cbn [for_each].
    destruct (mode_frame R archive_time a config_type w Hprompt Hcalm Hsave Ha)
      as (Hx & Hc & Ho).
    match goal with |- context [bind ?m ?k w] =>
      destruct (bind_cases m k w) as [(x & w1 & Hm & ->) | (e & w1 & Hm & ->)];
      rewrite Hm in Hx, Hc, Ho; cbn [snd] in Hx, Hc, Ho
    end; [|done].
    destruct (IH w1) as (Hx' & Hc' & Ho').
    { intros v Hv. rewrite Hx in Hv. rewrite (Ha v Hv). unfold archive_dir. by rewrite Hc. }
    split; [congruence|]. split; [congruence|]. by transitivity w1.
Qed.

(** The whole of [__main__]. *)
Lemma main_frame (R : string → World → World → Prop) `{!∀ a, PreOrder (R a)} w :
  (∀ a w w', prompting w w' → R a w w') →
  (∀ a w w', calm w w' → R a w w') →
  (∀ a snippet_name config_type element render_type,
     frames (R a) (template_save snippet_name a config_type element render_type)) →
  (∀ k, k ≠ "ADMINISTRATOR_USERNAME" → k ≠ "ADMINISTRATOR_PASSWORD" →
        xmlvar (main w).2 !! k = xmlvar w !! k)
  ∧ cwd (main w).2 = cwd w
  ∧ ∀ v, xmlvar w !! "MYCONFIG_DIR" = Some v →
         R (archive_dir w v (timestamp w)) w (main w).2.
Proof.
  intros Hprompt Hcalm Hsave. unfold main.
  pose proof (main_prologue_prompting w) as Hp.
  pose proof (main_prologue_ends w) as Hends.
  match goal with |- context [bind main_prologue ?k w] =>
    destruct (bind_cases main_prologue k w) as [(t & w1 & Hm & ->) | (e & w1 & Hm & ->)]
  end; rewrite Hm in Hp, Hends; cbn [fst snd] in Hp, Hends;
    pose proof Hp as (Hc & _ & _ & _ & Hx & _).
  - assert (t = timestamp w) as -> by (destruct Hends as [Hends|Hends]; congruence).
    assert (Hdir : xmlvar w1 !! "MYCONFIG_DIR" = xmlvar w !! "MYCONFIG_DIR") by (by apply Hx).
    assert (Hsame : ∀ v, archive_dir w1 v (timestamp w) = archive_dir w v (timestamp w)).
    { intros v. unfold archive_dir. by rewrite Hc. }
    split; [|split].
    + intros k Hu Hpw.
      destruct (xmlvar w1 !! "MYCONFIG_DIR") as [v|] eqn:Hv.
      * destruct (modes_frame R (timestamp w) (archive_dir w1 v (timestamp w))
                    ["panos"; "panorama"] Hprompt Hcalm Hsave w1) as (-> & _); [|by apply Hx].
        intros v' Hv'. congruence.
      * destruct (modes_frame R (timestamp w) "" ["panos"; "panorama"] Hprompt Hcalm Hsave w1)
          as (-> & _); [|by apply Hx].
        intros v' Hv'. congruence.
    + destruct (xmlvar w1 !! "MYCONFIG_DIR") as [v|] eqn:Hv.
      * destruct (modes_frame R (timestamp w) (archive_dir w1 v (timestamp w))
                    ["panos"; "panorama"] Hprompt Hcalm Hsave w1) as (_ & -> & _); [|done].
        intros v' Hv'. congruence.
      * destruct (modes_frame R (timestamp w) "" ["panos"; "panorama"] Hprompt Hcalm Hsave w1)
          as (_ & -> & _); [|done].
        intros v' Hv'. congruence.
    + intros v Hv.
      destruct (modes_frame R (timestamp w) (archive_dir w v (timestamp w))
                  ["panos"; "panorama"] Hprompt Hcalm Hsave w1) as (_ & _ & Ho).
      { intros v' Hv'. rewrite Hsame. congruence. }
      transitivity w1; [by apply Hprompt | exact Ho].
  - cbn [snd]. split; [exact Hx|]. split; [exact Hc|]. intros v _. by apply Hprompt.
Qed.

Lemma prompting_outside a w w' : prompting w w' → outside a w w'.
Proof. intros (Hc & _ & Hf & _). split; [done|]. intros q _. by rewrite Hf. Qed.

(** X14.  A run of the script changes the variable set at the two
    credentials only: every other variable - [MYCONFIG_DIR] among them - has
    at the end of the run, and so for both configuration types, the value
    it had when the script started. *)
Theorem main_changes_only_the_credentials w k :
  k ≠ "ADMINISTRATOR_USERNAME" → k ≠ "ADMINISTRATOR_PASSWORD" →
  xmlvar (main w).2 !! k = xmlvar w !! k.
Proof.
  intros Hu Hp.
  by apply (main_frame outside w prompting_outside calm_outside
              (λ a n c e r, template_save_outside n a c e r)).
Qed.


(** *** What a call that ends normally has done *)

Lemma render_snippets_steady snippet_dict template_path myconfig_path config_type :
  frames steady (render_snippets snippet_dict template_path myconfig_path config_type).
Proof.
  assert (Hc : ∀ A (m : M A), frames calm m → frames steady m).
  { intros A m. apply (frames_weaken calm steady), calm_steady. }
  unfold render_snippets. apply frames_for_each; [apply _ | intros k].
  unfold snippet_body.
  apply frames_bind; [apply _ | apply Hc, print_calm | intros _].
  apply frames_bind; [apply _ | apply Hc, first_item_calm | intros first].
  apply frames_bind; [apply _ | apply Hc, exists_calm | intros present].
  destruct (negb present).
  - apply Hc. repeat calm_step.
  - apply frames_bind; [apply _ | apply Hc, template_render_calm | intros element].
    apply template_save_steady.
Qed.

(** A call that ends normally has passed every step: the type is one of
    the two, the folder name and the bound type were found, and the last
    thing it did to the files was the save of the full configuration. *)
Lemma replace_variables_ok config_type archivetime w w' :
  replace_variables config_type archivetime w = (Ok tt, w') →
  ∃ v g element w7 w8,
    (config_type = "panos" ∨ config_type = "panorama")
    ∧ xmlvar w !! "MYCONFIG_DIR" = Some v
    ∧ config_type_global w = Some g
    ∧ cwd w7 = cwd w
    ∧ template_save full_template (archive_dir w v archivetime) config_type element "full" w7
      = (Ok tt, w8)
    ∧ files w' = files w8.
Proof.
  unfold replace_variables. intros Hrun.
  erewrite bind_ok in Hrun by reflexivity.
  erewrite bind_ok in Hrun by reflexivity.
  fold (template_dir w config_type) in Hrun. fold (before_import w config_type) in Hrun.
  set (w1 := before_import w config_type) in *.
  apply bind_inv_ok in Hrun as (lo & w2 & Hm & Hrun).
  assert (Hq2 : calm w1 w2) by (eapply (frames_run calm); [apply import_calm|exact Hm]).
  clear Hm.
  apply bind_inv_ok in Hrun as (sd & w3 & Hm & Hrun).
  assert (Hq3 : calm w1 w3).
  { transitivity w2; [done|]. eapply frames_run; [apply resolve_dict_calm|exact Hm]. }
  assert (Hmode : config_type = "panos" ∨ config_type = "panorama").
  { destruct (String.eqb config_type "panos") eqn:E1; [left; by apply String.eqb_eq|].
    destruct (String.eqb config_type "panorama") eqn:E2; [right; by apply String.eqb_eq|].
    discriminate Hm. }
  clear Hm.
  apply bind_inv_ok in Hrun as (v & w3' & Hm & Hrun).
  assert (Hv : xmlvar w3 !! "MYCONFIG_DIR" = Some v ∧ w3' = w3).
  { unfold xmlvar_get in Hm. destruct (xmlvar w3 !! "MYCONFIG_DIR"); by inversion Hm. }
  destruct Hv as [Hv ->]. clear Hm.
  replace (xmlvar w3) with (xmlvar w) in Hv by (by destruct Hq3 as (_ & -> & _)).
  apply bind_inv_ok in Hrun as (mp & w4 & Hm & Hrun).
  assert (Hq4 : calm w1 w4).
  { transitivity w3; [done|]. eapply frames_run; [apply myconfig_newdir_calm|exact Hm]. }
  apply myconfig_newdir_ok in Hm as (g & -> & _ & Hglob & _).
  replace (config_type_global w3) with (config_type_global w) in Hglob
    by (by destruct Hq3 as (_ & _ & _ & _ & -> & _)).
  replace (cwd w3) with (cwd w) in Hrun by (by destruct Hq3 as (-> & _)).
  fold (archive_dir w v archivetime) in Hrun. set (mp := archive_dir w v archivetime) in *.
  apply bind_inv_ok in Hrun as ([] & w5 & Hm & Hrun).
  assert (Hq5 : steady w1 w5).
  { transitivity w4; [by apply calm_steady|].
    eapply frames_run; [apply render_snippets_steady|exact Hm]. }
  clear Hm.
  apply bind_inv_ok in Hrun as ([] & w6 & [= <-] & Hrun).
  apply bind_inv_ok in Hrun as (element & w7 & Hm & Hrun).
  assert (Hq7 : cwd w7 = cwd w).
  { apply (frames_run calm) in Hm; [|apply template_render_calm].
    destruct Hm as (-> & _). world_fields. by destruct Hq5 as (-> & _). }
  clear Hm.
  apply bind_inv_ok in Hrun as ([] & w8 & Hm & Hrun).
  exists v, g, element, w7, w8.
  apply bind_inv_ok in Hrun as ([] & w9 & [= <-] & Hrun).
  apply bind_inv_ok in Hrun as ([] & w10 & [= <-] & [= <-]).
  done.
Qed.


(** X16.  A call of [replace_variables] that ends normally was for one of
    the two supported types, found the module-level [config_type] bound and
    [MYCONFIG_DIR] in the variable set, and has saved the full
    configuration: the file
    [<archive>/<type>/full/iron_skillet_day1_template.xml] exists when the
    call returns, and nothing the call did after the save has changed it. *)
Theorem finished_call_has_saved_the_full_configuration config_type archivetime w w' :
  replace_variables config_type archivetime w = (Ok tt, w') →
  (config_type = "panos" ∨ config_type = "panorama")
  ∧ is_Some (config_type_global w)
  ∧ ∃ v element,
      xmlvar w !! "MYCONFIG_DIR" = Some v
      ∧ files w' !! resolve w (archive_dir w v archivetime +:+ "/" +:+ config_type
                               +:+ "/" +:+ "full" +:+ "/" +:+ full_template)
        = Some element.
Proof.
  intros Hrun.
  destruct (replace_variables_ok _ _ _ _ Hrun)
    as (v & g & element & w7 & w8 & Hmode & Hv & Hglob & Hc & Hsave & Hfiles).
  split; [exact Hmode|]. split; [by exists g|].
  exists v, element. split; [exact Hv|].
  apply template_save_content in Hsave.
  rewrite Hfiles. unfold resolve in *. rewrite <- Hc. exact Hsave.
Qed.

(** One pass of the loop of [__main__] that ends normally. *)
Lemma mode_ok archive_time config_type w w' :
  bind (bind_config_type_global config_type)
       (λ _, replace_variables config_type archive_time) w = (Ok tt, w') →
  cwd w' = cwd w ∧ xmlvar w' = xmlvar w
  ∧ (∀ q, is_Some (files w !! q) → is_Some (files w' !! q))
  ∧ ∃ v, xmlvar w !! "MYCONFIG_DIR" = Some v
         ∧ is_Some (files w' !! resolve w (archive_dir w v archive_time +:+ "/" +:+ config_type
                                           +:+ "/" +:+ "full" +:+ "/" +:+ full_template)).
Proof.
  intros Hrun. erewrite bind_ok in Hrun by reflexivity.
  set (w1 := with_config_type_global _ w) in Hrun.
  pose proof (replace_variables_steady config_type archive_time w1) as Hs.
  rewrite Hrun in Hs. cbn [snd] in Hs.
  destruct Hs as (Hc & Hx & _ & _ & _ & _ & _ & _ & Hf & _).
  split; [exact Hc|]. split; [exact Hx|]. split; [exact Hf|].
  destruct (replace_variables_ok _ _ _ _ Hrun)
    as (v & g & element & w7 & w8 & _ & Hv & _ & Hc7 & Hsave & Hfiles).
  exists v. split; [exact Hv|]. exists element.
  apply template_save_content in Hsave.
  rewrite Hfiles. unfold resolve in *.
  change (cwd w1) with (cwd w) in Hc7. rewrite <- Hc7. exact Hsave.
Qed.

(** X17.  A run of the script that ends normally has produced both full
    configurations, in the one archive folder of the run: the files
    [<archive>/panos/full/iron_skillet_day1_template.xml] and
    [<archive>/panorama/full/iron_skillet_day1_template.xml] exist at the
    end, with [<archive>] the folder named after [MYCONFIG_DIR] and the time
    stamp taken at the start. *)
Theorem finished_run_has_both_configurations w :
  (main w).1 = Ok tt →
  ∃ v,
    xmlvar w !! "MYCONFIG_DIR" = Some v
    ∧ ∀ config_type,
        config_type = "panos" ∨ config_type = "panorama" →
        is_file (main w).2 (archive_dir w v (timestamp w) +:+ "/" +:+ config_type
                            +:+ "/" +:+ "full" +:+ "/" +:+ full_template) = true.
Proof.
  intros Hok. destruct (main w) as [r w'] eqn:Hrun. cbn [fst snd] in *. subst r.
  unfold main in Hrun.
  apply bind_inv_ok in Hrun as (t & w1 & Hm & Hrun).
  pose proof (main_prologue_prompting w) as Hp.
  pose proof (main_prologue_ends w) as Hends.
  rewrite Hm in Hp, Hends. cbn [fst snd] in Hp, Hends.
  assert (t = timestamp w) as -> by (destruct Hends as [Hends|Hends]; congruence).
  destruct Hp as (Hc1 & _ & _ & _ & Hx1 & _).
  cbn [for_each] in Hrun.
  apply bind_inv_ok in Hrun as ([] & w2 & Hpanos & Hrun).
  apply bind_inv_ok in Hrun as ([] & w3 & Hpanorama & [= <-]).
  apply mode_ok in Hpanos as (Hc2 & Hx2 & _ & v & Hv & Hfull2).
  apply mode_ok in Hpanorama as (Hc3 & Hx3 & Hf3 & v' & Hv' & Hfull3).
  assert (v' = v) as -> by congruence.
  assert (Hsame1 : archive_dir w1 v (timestamp w) = archive_dir w v (timestamp w)).
  { unfold archive_dir. by rewrite Hc1. }
  assert (Hsame2 : archive_dir w2 v (timestamp w) = archive_dir w v (timestamp w)).
  { unfold archive_dir. by rewrite Hc2, Hc1. }
  exists v. split.
  { rewrite <- Hv. symmetry. by apply Hx1. }
  intros config_type [-> | ->]; unfold is_file; apply bool_decide_eq_true.
  - apply Hf3 in Hfull2. rewrite Hsame1 in Hfull2.
    unfold resolve in *. rewrite Hc3, Hc2. exact Hfull2.
  - rewrite Hsame2 in Hfull3. unfold resolve in *. rewrite Hc3. exact Hfull3.
Qed.

(** *** How often the variables file is copied *)

Lemma copies_app evs1 evs2 : copies (evs1 ++ evs2) = copies evs1 ++ copies evs2.
Proof. apply List.filter_app. Qed.

Lemma notices_no_copies evs : forallb is_notice evs = true → copies evs = [].
Proof.
  induction evs as [|e evs IH]; [done|]. cbn [forallb copies List.filter].
  intros [He Hevs]%andb_true_iff. fold (copies evs). rewrite (IH Hevs).
  by destruct e.
Qed.

Lemma is_dir_earlier w w' p :
  cwd w' = cwd w → dirs w ⊆ dirs w' → is_dir w' p = false → is_dir w p = false.
Proof.
  unfold is_dir, resolve. intros -> Hsub Hno.
  apply bool_decide_eq_false in Hno. apply bool_decide_eq_false. set_solver.
Qed.

Lemma is_file_later w w' p :
  cwd w' = cwd w → (∀ q, is_Some (files w !! q) → is_Some (files w' !! q)) →
  is_file w p = true → is_file w' p = true.
Proof.
  unfold is_file, resolve. intros -> Hkeep Hyes.
  apply bool_decide_eq_true in Hyes. apply bool_decide_eq_true. by apply Hkeep.
Qed.

(** A step that copies nothing and removes nothing. *)
Lemma copied_once_intro copy_path w w' evs :
  cwd w' = cwd w → dirs w ⊆ dirs w' →
  (∀ q, is_Some (files w !! q) → is_Some (files w' !! q)) →
  log w' = log w ++ evs → copies evs = [] →
  copied_once copy_path w w'.
Proof.
  intros Hc Hd Hf Hl Hn. split; [done|]. split; [done|].
  split; [by apply is_file_later|].
  exists evs. split; [done|]. intros _. rewrite Hn. split; [|done].
  cbn [length]. lia.
Qed.

#[local] Instance copied_once_preorder copy_path : PreOrder (copied_once copy_path).
Proof.
  split.
  - intros w. apply (copied_once_intro _ _ _ []); try done. by rewrite app_nil_r.
  - intros w1 w2 w3 (C12 & D12 & F12 & e1 & L1 & N1) (C23 & D23 & F23 & e2 & L2 & N2).
    split; [congruence|]. split; [by transitivity (dirs w2)|].
    split; [by intros ?; apply F23, F12|].
    exists (e1 ++ e2). split; [by rewrite L2, L1, app_assoc|].
    intros Hno3.
    pose proof (is_dir_earlier _ _ _ C23 D23 Hno3) as Hno2.
    destruct (N1 Hno2) as [Len1 Made1]. destruct (N2 Hno3) as [Len2 Made2].
    rewrite copies_app, length_app.
    destruct (copies e1) as [|c1 r1] eqn:E1.
    + cbn [length app] in *. split.
      * destruct (is_file w1 copy_path) eqn:F1.
        -- by rewrite (F12 eq_refl) in Len2.
        -- destruct (is_file w2 copy_path); lia.
      * exact Made2.
    + assert (F2 : is_file w2 copy_path = true) by (by apply Made1).
      rewrite F2 in Len2.
      destruct (copies e2) as [|c2 r2]; [|cbn [length] in Len2; lia].
      rewrite app_nil_r. split.
      * cbn [length] in *. lia.
      * intros _. by apply F23.
Qed.

Lemma calm_copied_once copy_path w w' : calm w w' → copied_once copy_path w w'.
Proof.
  intros (Hc & _ & _ & _ & _ & _ & _ & Hf & Hd & evs & Hl & Hn).
  apply (copied_once_intro _ _ _ evs); [done|done| |done|by apply notices_no_copies].
  intros q. by rewrite Hf.
Qed.

Lemma prompting_copied_once copy_path w w' : prompting w w' → copied_once copy_path w w'.
Proof.
  intros (Hc & Hd & Hf & _ & _ & evs & Hl & Hn).
  apply (copied_once_intro _ _ _ evs); [done|by rewrite Hd| |done|by apply notices_no_copies].
  intros q. by rewrite Hf.
Qed.

Lemma template_save_copied_once snippet_name myconfigdir config_type element render_type :
  frames (copied_once (myconfigdir +:+ "/my_variables.py"))
         (template_save snippet_name myconfigdir config_type element render_type).
Proof.
  intros w. unfold template_save.
  erewrite bind_ok by apply print_typed.
  set (w0 := typed _ _ w).
  destruct (write_file_cases
              (myconfigdir +:+ "/" +:+ config_type +:+ "/" +:+ render_type +:+ "/" +:+ snippet_name)
              element w0) as [[e He] | Hwrite].
  { erewrite bind_raise by exact He. cbn [snd].
    by apply (copied_once_intro _ _ _ [EPrint ("..saving template for " +:+ snippet_name)]). }
  erewrite bind_ok by exact Hwrite. clear Hwrite.
  change (resolve w0 ?p) with (resolve w p).
  set (q := resolve w _). set (w1 := emit _ _).
  assert (H1 : copied_once (myconfigdir +:+ "/my_variables.py") w w1).
  { apply (copied_once_intro _ _ _ [EPrint ("..saving template for " +:+ snippet_name);
                                    EWrite q element]); try done.
    - intros q'. subst w1 w0. world_fields. apply insert_keeps_files.
    - subst w1 w0. world_fields. by rewrite <- app_assoc. }
  erewrite bind_ok by reflexivity.
  destruct (is_file w1 (myconfigdir +:+ "/my_variables.py")) eqn:Hfile; cbn [negb when].
  - erewrite bind_ok by reflexivity. exact H1.
  - destruct (copy_cases "my_variables.py" (myconfigdir +:+ "/my_variables.py") w1)
      as [[e He] | (content & _ & _ & Hcopy)].
    { erewrite bind_raise by exact He. exact H1. }
    erewrite bind_ok by exact Hcopy. clear Hcopy. unfold ret. cbn [snd].
    destruct H1 as (_ & _ & F1 & _).
    assert (F0 : is_file w (myconfigdir +:+ "/my_variables.py") = false).
    { destruct (is_file w _); [|done]. by rewrite (F1 eq_refl) in Hfile. }
    split; [done|]. split; [done|]. split; [by rewrite F0|].
    exists [EPrint ("..saving template for " +:+ snippet_name); EWrite q element;
            ECopy (resolve w "my_variables.py")
                  (resolve w (if is_dir w1 (myconfigdir +:+ "/my_variables.py")
                              then Path.join (myconfigdir +:+ "/my_variables.py")
                                             (Path.basename "my_variables.py")
                              else myconfigdir +:+ "/my_variables.py"))].
    split.
    { subst w1 w0. world_fields. by rewrite <- !app_assoc. }
    intros Hno. rewrite F0. split; [cbn; lia|]. intros _.
    change (is_dir w1 (myconfigdir +:+ "/my_variables.py") = false) in Hno.
    rewrite Hno. unfold is_file. world_fields.
    change (resolve _ ?p) with (resolve w p).
    apply bool_decide_eq_true. rewrite lookup_insert_eq. eauto.
Qed.

(** X18.  A run of the script copies the variables file at most once, for
    both configuration types together, and not at all when the archive
    folder holds a copy already - as long as the path of the copy,
    [<archive>/my_variables.py], is not a directory. *)
Theorem variables_file_is_copied_at_most_once w v :
  xmlvar w !! "MYCONFIG_DIR" = Some v →
  let copy_path := archive_dir w v (timestamp w) +:+ "/my_variables.py" in
  ∃ evs,
    log (main w).2 = log w ++ evs
    ∧ (is_dir (main w).2 copy_path = false →
       (length (copies evs) ≤ 1)%nat
       ∧ (is_file w copy_path = true → copies evs = [])).
Proof.
  intros Hv copy_path.
  destruct (main_frame (λ a, copied_once (a +:+ "/my_variables.py")) w
              (λ a, prompting_copied_once _) (λ a, calm_copied_once _)
              (λ a n c e r, template_save_copied_once n a c e r)) as (_ & _ & Ho).
  destruct (Ho v Hv) as (_ & _ & _ & evs & Hl & Hn).
  exists evs. split; [exact Hl|]. intros Hno.
  destruct (Hn Hno) as [Len _]. fold copy_path in Len.
  destruct (is_file w copy_path).
  - split; [lia|]. intros _. destruct (copies evs); [done|cbn [length] in Len; lia].
  - split; [exact Len|]. discriminate.
Qed.


(** ** The snippets of the load order *)

(** *** Where [normpath] puts the last components of a path *)


















(** *** The loop leaves the template tree as it found it *)

#[local] Instance same_dirs_preorder : PreOrder same_dirs.
Proof.
  split.
  - by intros w.
  - intros w1 w2 w3 H12 H23. unfold same_dirs in *. congruence.
Qed.

#[local] Instance saving_preorder a : PreOrder (saving a).
Proof.
  split.
  - intros w. by split.
  - intros w1 w2 w3 [D12 O12] [D23 O23]. split; by etrans.
Qed.














(** *** The operations of the loop *)





(** *** The whole call *)







End Properties.

(** ** The script on the sample worlds *)

Example normpath_parent :
  Path.abspath "/home/ops/iron-skillet/tools" (Path.join ".." "my_configs")
  = "/home/ops/iron-skillet/my_configs".
Proof. reflexivity. Qed.

Example normpath_dots :
  Path.normpath "a/./b/../../../c//d/" = "../c/d" ∧ Path.normpath "//x/.." = "//" ∧ Path.normpath "/.." = "/".
Proof. repeat split; reflexivity. Qed.

Example dirname_cases :
  Path.dirname "/a/b/c.xml" = "/a/b" ∧ Path.dirname "/a" = "/" ∧ Path.dirname "c.xml" = ""
  ∧ Path.dirname "a//b" = "a" ∧ Path.basename "/a/b/c.xml" = "c.xml".
Proof. repeat split; reflexivity. Qed.

Example center_banner :
  String.length (Path.center "Welcome to Iron-Skillet" 80) = 80
  ∧ Path.startswith (Path.repeat_string " " 28 +:+ "W") (Path.center "Welcome to Iron-Skillet" 80) = true.
Proof. split; reflexivity. Qed.

(** C4: a type that is neither panos nor panorama, in a checkout that has no
    load-order module for it (the checkout of the repository has none but
    those two).  The import on the line before the test of the type raises:
    the run ends with [ModuleNotFoundError], exit status 1, and the
    diagnostic of the last branch is never printed. *)
Lemma unsupported_mode_import_error :
  let out := replace_variables "vpn" Sample.stamp (Sample.checkout_in "vpn") in
  out.1 = Raise (ModuleNotFoundError "vpn_snippet_load_order")
  ∧ log out.2 = []
  ∧ (diagnostic ∉ log out.2)
  ∧ exit_status out.1 = 1%Z.
Proof.
  assert (Hlog : log (replace_variables "vpn" Sample.stamp (Sample.checkout_in "vpn")).2 = [])
    by (vm_compute; reflexivity).
  cbv zeta. rewrite Hlog. split; [vm_compute; reflexivity|].
  split; [done|]. split; [apply not_elem_of_nil|vm_compute; reflexivity].
Qed.

(** C5, as stated, fails: with a load-order module for the type in place the
    run prints the diagnostic and ends, but with exit status 0. *)
Lemma unsupported_mode_status_counterexample :
  let out := replace_variables "vpn" Sample.stamp Sample.checkout_with_vpn in
  out.1 = Raise (SystemExit None)
  ∧ log out.2 = [diagnostic]
  ∧ exit_status out.1 = 0%Z
  ∧ ¬ aborts_with_failure_status out.
Proof.
  assert (Hres : (replace_variables "vpn" Sample.stamp Sample.checkout_with_vpn).1
                 = Raise (SystemExit None)) by (vm_compute; reflexivity).
  cbv zeta. split; [done|]. split; [vm_compute; reflexivity|].
  split; [rewrite Hres; reflexivity|].
  intros (_ & _ & Hstatus). rewrite Hres in Hstatus. apply Hstatus. reflexivity.
Qed.

Lemma unsupported_mode_exit_status_witness :
  let out := replace_variables "vpn" Sample.stamp Sample.checkout_with_vpn in
  out.1 = Raise (SystemExit None)
  ∧ log out.2 = log Sample.checkout_with_vpn ++ [diagnostic]
  ∧ exit_status out.1 = 0%Z.
Proof.
  apply (unsupported_mode_exit_status "vpn" Sample.stamp Sample.checkout_with_vpn).
  - discriminate.
  - discriminate.
  - apply (bool_decide_eq_true_1 (is_Some _)). vm_compute. reflexivity.
Defined.

Lemma unsupported_mode_creates_nothing_witness :
  let out := replace_variables "vpn" Sample.stamp (Sample.checkout_in "vpn") in
  (∃ e, out.1 = Raise e)
  ∧ dirs out.2 = dirs (Sample.checkout_in "vpn")
  ∧ files out.2 = files (Sample.checkout_in "vpn")
  ∧ (log out.2 = log (Sample.checkout_in "vpn")
     ∨ log out.2 = log (Sample.checkout_in "vpn") ++ [diagnostic]).
Proof.
  apply (unsupported_mode_creates_nothing "vpn" Sample.stamp (Sample.checkout_in "vpn")).
  - discriminate.
  - discriminate.
Defined.


Lemma myconfig_newdir_idempotent_witness :
  let w' := (myconfig_newdir (PyStr "my_config") Sample.stamp (Sample.checkout_in "panos")).2 in
  myconfig_newdir (PyStr "my_config") Sample.stamp w' = (Ok Sample.archive, w').
Proof.
  apply (myconfig_newdir_idempotent (PyStr "my_config") Sample.stamp
           (Sample.checkout_in "panos")).
  apply run_eta. vm_compute. reflexivity.
Defined.

Lemma password_confirmed_before_rendering_witness :
  main_prologue Sample.checkout
  = (Ok (timestamp Sample.checkout),
     with_xmlvar (<["ADMINISTRATOR_PASSWORD" := PyStr "secret"]>
                    (<["ADMINISTRATOR_USERNAME" := PyStr "admin"]> (xmlvar Sample.checkout)))
       (typed (banner (timestamp Sample.checkout) "admin"
               ++ flat_map (λ _, failed_round) [("secret", "secrat")] ++ round_prompts)
              [] Sample.checkout)).
Proof.
  apply (proj1 (password_confirmed_before_rendering Sample.checkout "admin"
                  [("secret", "secrat")]
                  ltac:(repeat constructor; discriminate))).
  reflexivity.
Defined.

(** A run in a checkout without template files: every snippet is skipped and
    the full configuration template is not found.  The archive folder is
    there, nothing was saved, and there is no copy of the variables file. *)
Lemma provenance_copy_witness :
  let out := replace_variables "panos" Sample.stamp Sample.bare in
  is_dir out.2 Sample.archive = true
  ∧ files out.2 = files Sample.bare
  ∧ files out.2 !! (Sample.archive +:+ "/my_variables.py") = None.
Proof.
  assert (Hfiles : files (replace_variables "panos" Sample.stamp Sample.bare).2
                   = files Sample.bare).
  { destruct (proj1 (proj2 provenance_copy_comes_with_a_save "panos" Sample.stamp Sample.bare))
      as (evs & Hlog & Hkeep).
    apply Hkeep. change (log Sample.bare ++ evs) with evs in Hlog. rewrite <- Hlog.
    vm_compute. reflexivity. }
  cbv zeta. rewrite Hfiles. split; [vm_compute; reflexivity|]. split; [done|].
  vm_compute. reflexivity.
Defined.

(** ** The further properties on the sample worlds *)



Lemma unbound_config_type_witness :
  (replace_variables "panos" Sample.stamp Sample.checkout).1 ≠ Ok tt.
Proof.
  apply (unbound_config_type_never_succeeds "panos" Sample.stamp Sample.checkout).
  reflexivity.
Defined.

Lemma myconfig_newdir_layout_witness :
  ∃ g,
    config_type_global (Sample.checkout_in "panos") = Some g
    ∧ Sample.archive = archive_dir (Sample.checkout_in "panos") (PyStr "my_config") Sample.stamp
    ∧ is_dir Sample.prepared
             (Path.abspath (cwd (Sample.checkout_in "panos")) (Path.join ".." "my_configs"))
      = true
    ∧ is_dir Sample.prepared Sample.archive = true
    ∧ is_dir Sample.prepared (Sample.archive +:+ "/" +:+ g) = true
    ∧ (is_dir (Sample.checkout_in "panos") (Sample.archive +:+ "/" +:+ g) = false →
       is_dir Sample.prepared (Sample.archive +:+ "/" +:+ g +:+ "/snippets") = true
       ∧ is_dir Sample.prepared (Sample.archive +:+ "/" +:+ g +:+ "/full") = true).
Proof.
  apply (myconfig_newdir_layout (PyStr "my_config") Sample.stamp (Sample.checkout_in "panos")
           Sample.archive Sample.prepared).
  unfold Sample.prepared. apply run_eta. vm_compute. reflexivity.
Defined.

Lemma saved_artifact_witness :
  let w' := (template_save "tag.xml" Sample.archive "panos" "<tag/>" "snippets"
               Sample.prepared).2 in
  files w' !! resolve Sample.prepared
                (Sample.archive +:+ "/" +:+ "panos" +:+ "/" +:+ "snippets" +:+ "/" +:+ "tag.xml")
  = Some "<tag/>"
  ∧ is_file w' (Sample.archive +:+ "/" +:+ "panos" +:+ "/" +:+ "snippets" +:+ "/" +:+ "tag.xml")
    = true.
Proof.
  apply (saved_artifact_holds_the_text "tag.xml" Sample.archive "panos" "<tag/>" "snippets"
           Sample.prepared).
  apply run_eta. vm_compute. reflexivity.
Defined.


Lemma empty_entry_witness :
  let body := snippet_body [("/config/shared/empty", [])] "/opt/iron-skillet/templates/panos"
                           Sample.archive "panos" in
  let w1 := with_log (log Sample.prepared
                      ++ [EPrint (Path.nl +:+ "working with " +:+ "/config/shared/empty")])
                     Sample.prepared in
  body "/config/shared/empty" Sample.prepared = (Raise IndexError, w1)
  ∧ for_each ["/config/shared/empty"; "/config/shared/next"] body Sample.prepared
    = (Raise IndexError, w1).
Proof.
  apply (empty_entry_stops_the_loop [("/config/shared/empty", [])]
           "/opt/iron-skillet/templates/panos" Sample.archive "panos"
           "/config/shared/empty" ["/config/shared/next"] Sample.prepared).
  reflexivity.
Defined.

Lemma present_snippet_witness :
  let w' := (snippet_body Sample.panos_dict "/opt/iron-skillet/templates/panos" Sample.archive
               "panos" "/config/devices/entry/vsys/entry/tag" Sample.prepared).2 in
  let env :=
    register_filter "sha512_hash" sha512_hash
      (register_filter "des_hash" des_hash
         (register_filter "md5_hash" md5_hash
            (new_environment ("/opt/iron-skillet/templates/panos" +:+ "/" +:+ "snippets")))) in
  ∃ t element,
    jinja_get_template env
      (loader_view Sample.prepared ("/opt/iron-skillet/templates/panos" +:+ "/" +:+ "snippets"))
      ("tag" +:+ ".xml") = Ok t
    ∧ (jinja_render t (xmlvar Sample.prepared) (rng Sample.prepared)).1 = Ok element
    ∧ files w' !! resolve Sample.prepared
                    (Sample.archive +:+ "/" +:+ "panos" +:+ "/" +:+ "snippets"
                     +:+ "/" +:+ "tag" +:+ ".xml")
      = Some element.
Proof.
  apply (present_snippet_is_rendered_and_saved Sample.panos_dict
           "/opt/iron-skillet/templates/panos" Sample.archive "panos"
           "/config/devices/entry/vsys/entry/tag" "tag" ["9.0"] Sample.prepared).
  - reflexivity.
  - vm_compute. reflexivity.
  - apply run_eta. vm_compute. reflexivity.
Defined.

Lemma main_changes_only_the_credentials_witness :
  xmlvar (main Sample.checkout).2 !! "MYCONFIG_DIR" = xmlvar Sample.checkout !! "MYCONFIG_DIR".
Proof.
  apply (main_changes_only_the_credentials Sample.checkout "MYCONFIG_DIR").
  - discriminate.
  - discriminate.
Defined.


Lemma finished_call_witness :
  ("panos" = "panos" ∨ "panos" = "panorama")
  ∧ is_Some (config_type_global (Sample.checkout_in "panos"))
  ∧ ∃ v element,
      xmlvar (Sample.checkout_in "panos") !! "MYCONFIG_DIR" = Some v
      ∧ files (replace_variables "panos" Sample.stamp (Sample.checkout_in "panos")).2
          !! resolve (Sample.checkout_in "panos")
               (archive_dir (Sample.checkout_in "panos") v Sample.stamp +:+ "/" +:+ "panos"
                +:+ "/" +:+ "full" +:+ "/" +:+ full_template)
        = Some element.
Proof.
  apply (finished_call_has_saved_the_full_configuration "panos" Sample.stamp
           (Sample.checkout_in "panos")).
  apply run_eta. vm_compute. reflexivity.
Defined.

Lemma variables_file_is_copied_at_most_once_witness :
  let copy_path :=
    archive_dir Sample.checkout (PyStr "my_config") (timestamp Sample.checkout)
    +:+ "/my_variables.py" in
  ∃ evs,
    log (main Sample.checkout).2 = log Sample.checkout ++ evs
    ∧ (is_dir (main Sample.checkout).2 copy_path = false →
       (length (copies evs) ≤ 1)%nat
       ∧ (is_file Sample.checkout copy_path = true → copies evs = [])).
Proof.
  apply (variables_file_is_copied_at_most_once Sample.checkout (PyStr "my_config")).
  reflexivity.
Defined.

Lemma finished_run_witness :
  ∃ v,
    xmlvar Sample.checkout !! "MYCONFIG_DIR" = Some v
    ∧ ∀ config_type,
        config_type = "panos" ∨ config_type = "panorama" →
        is_file (main Sample.checkout).2
                (archive_dir Sample.checkout v (timestamp Sample.checkout) +:+ "/" +:+ config_type
                 +:+ "/" +:+ "full" +:+ "/" +:+ full_template) = true.
Proof.
  apply (finished_run_has_both_configurations Sample.checkout).
  vm_compute. reflexivity.
Defined.


(** On the sample checkout the load order names three snippets; the file
    of the second is missing, so the first and the third are rendered and
    saved, in that order, and then the full configuration. *)
Example sample_run_in_load_order :
  present_snippets (Sample.checkout_in "panos")
                   (template_dir (Sample.checkout_in "panos") "panos") Sample.panos_dict
  = ["device_system.xml"; "tag.xml"]
  ∧ ops (log (replace_variables "panos" Sample.stamp (Sample.checkout_in "panos")).2)
    = [ Rendered "/opt/iron-skillet/templates/panos/snippets/device_system.xml";
        Saved "/opt/iron-skillet/my_configs/my_config-20181105_101500/panos/snippets/device_system.xml";
        Rendered "/opt/iron-skillet/templates/panos/snippets/tag.xml";
        Saved "/opt/iron-skillet/my_configs/my_config-20181105_101500/panos/snippets/tag.xml";
        Rendered "/opt/iron-skillet/templates/panos/full/iron_skillet_day1_template.xml";
        Saved "/opt/iron-skillet/my_configs/my_config-20181105_101500/panos/full/iron_skillet_day1_template.xml" ].
Proof. split; vm_compute; reflexivity. Qed.
